(** * Indian startups funding analysis: feature building, elbow selection,
      cluster labelling and amount parsing

    A shallow embedding of [clustering_model.py] (class [StartupClustering])
    and of the column and amount cleaning of [data_loader.py].

    Modelling conventions.
    - A Python/NumPy float is a value of [float]: an exact rational, one of
      the two infinities, or NaN.  Arithmetic on the special values follows
      IEEE 754; finite arithmetic is exact (no rounding, no signed zero).
      Where the code adds or multiplies amounts of the data, the result is
      kept in the range of binary64 ([Float.in_range]): beyond the range it
      is an infinity.  An integer of the data turned into a float is
      rounded to 53 significant bits ([Float.of_int]).
    - The [year] column holds 64-bit integers, and its arithmetic wraps
      around ([Int64]).
    - A pandas DataFrame is a list of row records, in row order.
    - Calls into pandas are defined here from their documented behaviour
      ([groupby], [fillna], [quantile], ...); calls into scikit-learn and the
      transcendental [np.log10] are variables of a section.
    - A Python exception is the [Raised] outcome of [result]. *)

From Stdlib Require Import ZArith QArith Qround Qabs List String Ascii Bool Lia Lra.
From Stdlib Require Import Sorting.Permutation Sorting.Sorted.
From Stdlib Require Import Reals.
Import ListNotations.

Local Open Scope Z_scope.

(* ------------------------------------------------------------------ *)
(** ** Exceptions *)

(** The exceptions of the model.  The first five are Python's own; the
    last two are named by the specification only, and no code path of the
    repository raises them. *)
Inductive exn : Type :=
| ZeroDivisionError
| ValueError
| TypeError
| KeyError
| OverflowError
| EmptyInputError
| NonFiniteValueError.

Inductive result (A : Type) : Type :=
| Returned (a : A)
| Raised (e : exn).
Arguments Returned {A} a.
Arguments Raised {A} e.

Definition bind {A B : Type} (m : result A) (k : A -> result B) : result B :=
  match m with
  | Returned a => k a
  | Raised e => Raised e
  end.

Declare Scope result_scope.
Delimit Scope result_scope with result.
Notation "x <- m ;; k" := (bind m (fun x => k))
  (at level 61, m at next level, right associativity) : result_scope.

(** [try: m except: d] is Python's [try: return m / except: return d]. *)
Definition try_except {A : Type} (m : result A) (d : A) : A :=
  match m with
  | Returned a => a
  | Raised _ => d
  end.

Fixpoint mapM {A B : Type} (f : A -> result B) (l : list A) : result (list B) :=
  match l with
  | [] => Returned []
  | x :: t =>
      match f x with
      | Raised e => Raised e
      | Returned y =>
          match mapM f t with
          | Raised e => Raised e
          | Returned ys => Returned (y :: ys)
          end
      end
  end.

(* ------------------------------------------------------------------ *)
(** ** Floats *)

Module Float.

Inductive float : Type :=
| Fin (q : Q)
| PInf
| NInf
| NaN.

(** Finite results are kept in lowest terms, so that equal numbers are
    equal terms. *)
Definition fin (q : Q) : float := Fin (Qred q).

Definition of_Z (z : Z) : float := Fin (inject_Z z).
Definition of_nat (n : nat) : float := of_Z (Z.of_nat n).

Definition zero : float := of_Z 0.
Definition one : float := of_Z 1.

Definition isnan (x : float) : bool :=
  match x with NaN => true | _ => false end.

Definition isfinite (x : float) : bool :=
  match x with Fin _ => true | _ => false end.

Definition Qis_zero (q : Q) : bool := Qeq_bool q 0.
Definition Qis_neg (q : Q) : bool := negb (Qle_bool 0 q).

Definition opp (x : float) : float :=
  match x with
  | Fin q => fin (- q)
  | PInf => NInf
  | NInf => PInf
  | NaN => NaN
  end.

Definition add (x y : float) : float :=
  match x, y with
  | NaN, _ | _, NaN => NaN
  | Fin a, Fin b => fin (a + b)
  | PInf, NInf | NInf, PInf => NaN
  | PInf, _ | _, PInf => PInf
  | NInf, _ | _, NInf => NInf
  end.

Definition sub (x y : float) : float := add x (opp y).

(** The infinity with the sign of [q] times the sign of [pos]. *)
Definition signed_inf (pos : bool) (q : Q) : float :=
  if Qis_zero q then NaN
  else if Bool.eqb pos (negb (Qis_neg q)) then PInf else NInf.

Definition mul (x y : float) : float :=
  match x, y with
  | NaN, _ | _, NaN => NaN
  | Fin a, Fin b => fin (a * b)
  | PInf, Fin q | Fin q, PInf => signed_inf true q
  | NInf, Fin q | Fin q, NInf => signed_inf false q
  | PInf, PInf | NInf, NInf => PInf
  | PInf, NInf | NInf, PInf => NInf
  end.

(** NumPy division (the one pandas columns use): a zero divisor gives an
    infinity or NaN, never an exception. *)
Definition div (x y : float) : float :=
  match x, y with
  | NaN, _ | _, NaN => NaN
  | Fin a, Fin b =>
      if Qis_zero b then signed_inf true a else fin (a / b)
  | Fin _, (PInf | NInf) => zero
  | PInf, Fin q => if Qis_neg q then NInf else PInf
  | NInf, Fin q => if Qis_neg q then PInf else NInf
  | (PInf | NInf), (PInf | NInf) => NaN
  end.

(** Division of two Python floats: a zero divisor raises. *)
Definition truediv (x y : float) : result float :=
  match y with
  | Fin b => if Qis_zero b then Raised ZeroDivisionError else Returned (div x y)
  | _ => Returned (div x y)
  end.

(** [x < y]; every comparison with NaN is false. *)
Definition ltb (x y : float) : bool :=
  match x, y with
  | NaN, _ | _, NaN => false
  | Fin a, Fin b => negb (Qle_bool b a)
  | NInf, (Fin _ | PInf) => true
  | Fin _, PInf => true
  | _, _ => false
  end.

Definition gtb (x y : float) : bool := ltb y x.

Definition leb (x y : float) : bool :=
  match x, y with
  | NaN, _ | _, NaN => false
  | Fin a, Fin b => Qle_bool a b
  | NInf, _ => true
  | _, PInf => true
  | _, _ => false
  end.

(** Equality of floats as numbers ([==] in Python; NaN differs from itself). *)
Definition eqb (x y : float) : bool :=
  match x, y with
  | Fin a, Fin b => Qeq_bool a b
  | PInf, PInf | NInf, NInf => true
  | _, _ => false
  end.

(** The range of binary64.  The largest finite number is [2^1024 - 2^971],
    and rounding to nearest takes every magnitude from [2^1024 - 2^970] on
    to an infinity (IEEE 754, section 4.3.1). *)
Definition huge : Z := 2 ^ 1024 - 2 ^ 970.

Definition overflows (q : Q) : bool := Qle_bool (inject_Z huge) (Qabs q).

(** A finite result brought into the range: the infinity of its sign when
    its magnitude overflows. *)
Definition in_range (x : float) : float :=
  match x with
  | Fin q => if overflows q then (if Qis_neg q then NInf else PInf) else x
  | _ => x
  end.

(** One addition and one multiplication of binary64 numbers. *)
Definition plus (x y : float) : float := in_range (add x y).
Definition times (x y : float) : float := in_range (mul x y).

(** The integer nearest to [z] among those that binary64 holds: [z] itself
    when it has at most 53 significant bits, and otherwise [z] rounded to
    53 significant bits, a tie going to the even neighbour. *)
Definition nearest_int (z : Z) : Z :=
  let a := Z.abs z in
  let e := Z.log2 a - 52 in
  if e <=? 0 then z
  else
    let m := a / 2 ^ e in
    let r := a mod 2 ^ e in
    let half := 2 ^ (e - 1) in
    let up := (half <? r) || ((half =? r) && Z.odd m) in
    Z.sgn z * ((if up then m + 1 else m) * 2 ^ e).

(** A 64-bit integer as a float: NumPy's cast of an [int64] column. *)
Definition of_int (z : Z) : float := Fin (inject_Z (nearest_int z)).

(** Python's [float(n)] for an [int]: the nearest float, and
    [OverflowError] when that would be beyond the range. *)
Definition float_of_int (n : Z) : result float :=
  if huge <=? Z.abs n then Raised OverflowError else Returned (of_int n).

End Float.
Export Float.

(** Arithmetic of a NumPy [int64] column: the result is reduced modulo
    [2^64] into [-2^63 .. 2^63 - 1]. *)
Module Int64.

Definition wrap (z : Z) : Z := (z + 2 ^ 63) mod 2 ^ 64 - 2 ^ 63.

Definition add (x y : Z) : Z := wrap (x + y).
Definition sub (x y : Z) : Z := wrap (x - y).

End Int64.

(* ------------------------------------------------------------------ *)
(** ** The funding table and pandas column operations *)

(** One row of the cleaned funding table [self.df]; [year] is a cell of an
    [int64] column. *)
Module DF.
Record row : Type := mk {
  startup_name : string;
  funding_amount_usd : float;
  year : Z;
  industry : string;
  city : string
}.
End DF.

(** Ascending sort by a boolean order: insertion into a sorted list. *)
Section InsertionSort.

Context {A : Type} (leb : A -> A -> bool).

Fixpoint insert (x : A) (l : list A) : list A :=
  match l with
  | [] => [x]
  | y :: t => if leb x y then x :: l else y :: insert x t
  end.

Definition sorted (l : list A) : list A := fold_right insert [] l.

End InsertionSort.

Module Pandas.

(** [Series.dropna()]. *)
Definition dropna (xs : list float) : list float :=
  filter (fun x => negb (isnan x)) xs.

(** [sum], [count] and [mean] of a column; all three skip NaN.  The sum
    adds the values in row order, and a partial sum beyond the range of a
    float is an infinity. *)
Definition sum (xs : list float) : float :=
  fold_left Float.plus (dropna xs) Float.zero.

Definition count (xs : list float) : nat := List.length (dropna xs).

Definition mean (xs : list float) : float :=
  Float.div (sum xs) (Float.of_nat (count xs)).

(** [min] and [max] of an [int64] column (0 on an empty column, which
    grouping never produces). *)
Definition min (ys : list Z) : Z :=
  match ys with
  | [] => 0
  | y :: t => fold_left Z.min t y
  end.

Definition max (ys : list Z) : Z :=
  match ys with
  | [] => 0
  | y :: t => fold_left Z.max t y
  end.

(** [first] of a string column. *)
Definition first (ss : list string) : string := hd EmptyString ss.

(** [unique()]: the distinct values, each at its first occurrence. *)
Fixpoint unique (ss : list string) : list string :=
  match ss with
  | [] => []
  | s :: t => s :: filter (fun x => negb (String.eqb x s)) (unique t)
  end.

(** [df.groupby('startup_name')]: the distinct keys in sorted order, each
    with its rows in their original order. *)
Definition groupby (df : list DF.row) : list (string * list DF.row) :=
  map (fun k => (k, filter (fun r => String.eqb (DF.startup_name r) k) df))
      (sorted String.leb (unique (map DF.startup_name df))).

(** [DataFrame.fillna(0)] on one cell, one row, a whole frame. *)
Definition fillna0_cell (x : float) : float :=
  if isnan x then Float.zero else x.

Definition fillna0 (X : list (list float)) : list (list float) :=
  map (map fillna0_cell) X.

End Pandas.

(* ------------------------------------------------------------------ *)
(** ** [StartupClustering.prepare_features] *)

(** One row of [startup_features]: the flattened aggregate columns followed
    by the derived features. *)
Record StartupFeatures : Type := mkFeatures {
  startup_name : string;
  funding_amount_usd_sum : float;
  funding_amount_usd_mean : float;
  funding_amount_usd_count : nat;
  year_min : Z;
  year_max : Z;
  industry_first : string;
  city_first : string;
  total_funding : float;
  avg_funding_per_round : float;
  num_funding_rounds : nat;
  years_active : Z;
  funding_per_year : float;
  log_total_funding : float;
  log_avg_funding : float
}.

Section PrepareFeatures.

(** [np.log10]. *)
Variable log10 : float -> float.

(** The row built for one group: the [agg] call, then lines 58 to 66. *)
Definition features_of_group (g : string * list DF.row) : StartupFeatures :=
  let '(k, rows) := g in
  let amounts := map DF.funding_amount_usd rows in
  let years := map DF.year rows in
  let s := Pandas.sum amounts in
  let m := Pandas.mean amounts in
  let c := Pandas.count amounts in
  let ymin := Pandas.min years in
  let ymax := Pandas.max years in
  let active := Int64.add (Int64.sub ymax ymin) 1 in
  {| startup_name := k;
     funding_amount_usd_sum := s;
     funding_amount_usd_mean := m;
     funding_amount_usd_count := c;
     year_min := ymin;
     year_max := ymax;
     industry_first := Pandas.first (map DF.industry rows);
     city_first := Pandas.first (map DF.city rows);
     total_funding := s;
     avg_funding_per_round := m;
     num_funding_rounds := c;
     years_active := active;
     funding_per_year := Float.div s (Float.of_int active);
     log_total_funding := log10 (Float.plus s Float.one);
     log_avg_funding := log10 (Float.plus m Float.one) |}.

Definition startup_features (df : list DF.row) : list StartupFeatures :=
  map features_of_group (Pandas.groupby df).

End PrepareFeatures.

(* ------------------------------------------------------------------ *)
(** ** NumPy helpers used by the elbow selection and the labelling *)

Module Numpy.

(** [np.mean] of a list of floats: NaN on the empty list, NaN is not
    skipped. *)
Definition mean (xs : list float) : float :=
  Float.div (fold_left Float.add xs Float.zero) (Float.of_nat (List.length xs)).

(** Ascending sort of a NaN-free column. *)
Definition sort (l : list float) : list float := sorted Float.leb l.

End Numpy.

Module Quantile.

(** [Series.quantile(q)] with the default linear interpolation: NaN is
    dropped, the position is [(n - 1) * q], and the value is interpolated
    between the two neighbouring order statistics.  The fractions 0.75,
    0.50 and 0.60 of the source are the rationals 75/100, 50/100, 60/100. *)
Definition quantile (xs : list float) (q : Q) : float :=
  let vs := Numpy.sort (Pandas.dropna xs) in
  match vs with
  | [] => NaN
  | _ =>
      let n := List.length vs in
      let h := (inject_Z (Z.of_nat (n - 1)) * q)%Q in
      let lo := Qfloor h in
      let frac := (h - inject_Z lo)%Q in
      let a := nth (Z.to_nat lo) vs NaN in
      let b := nth (Nat.min (Z.to_nat lo + 1) (n - 1)) vs NaN in
      Float.add a (Float.mul (Float.sub b a) (Float.fin frac))
  end.

End Quantile.
Export Quantile.

(* ------------------------------------------------------------------ *)
(** ** The [StartupClustering] object *)

(** The fields of the object that the modelled methods read or write.
    [cluster] and [cluster_name] are the columns that [train_kmeans] and
    [analyze_clusters] add to [cluster_data], aligned with its rows. *)
Record StartupClustering : Type := mkClustering {
  df : list DF.row;
  cluster_data : option (list StartupFeatures);
  cluster : option (list nat);
  cluster_name : option (list string);
  optimal_k : option nat
}.

(** [StartupClustering.__init__]. *)
Definition init (dataframe : list DF.row) : StartupClustering :=
  {| df := dataframe;
     cluster_data := None;
     cluster := None;
     cluster_name := None;
     optimal_k := None |}.

Definition set_cluster_data (self : StartupClustering) (d : list StartupFeatures)
  : StartupClustering :=
  {| df := df self;
     cluster_data := Some d;
     cluster := cluster self;
     cluster_name := cluster_name self;
     optimal_k := optimal_k self |}.

Definition set_optimal_k (self : StartupClustering) (k : nat) : StartupClustering :=
  {| df := df self;
     cluster_data := cluster_data self;
     cluster := cluster self;
     cluster_name := cluster_name self;
     optimal_k := Some k |}.

Definition set_cluster (self : StartupClustering) (c : list nat) : StartupClustering :=
  {| df := df self;
     cluster_data := cluster_data self;
     cluster := Some c;
     cluster_name := cluster_name self;
     optimal_k := optimal_k self |}.

Definition set_cluster_name (self : StartupClustering) (c : list string)
  : StartupClustering :=
  {| df := df self;
     cluster_data := cluster_data self;
     cluster := cluster self;
     cluster_name := Some c;
     optimal_k := optimal_k self |}.

(** A method returns a value and the updated object, or raises. *)
Definition method (A : Type) : Type :=
  StartupClustering -> result (A * StartupClustering).

(** The feature matrix: [cluster_data[feature_cols]]. *)
Definition feature_cols (r : StartupFeatures) : list float :=
  [ log_total_funding r;
    log_avg_funding r;
    Float.of_nat (num_funding_rounds r);
    Float.of_int (years_active r);
    funding_per_year r ].

(** [X = self.cluster_data[feature_cols].fillna(0)], the first statement of
    the scaling step of [find_optimal_k], [train_kmeans] and
    [visualize_clusters]. *)
Definition scaling_input (d : list StartupFeatures) : list (list float) :=
  Pandas.fillna0 (map feature_cols d).

(** [range(a, b)]. *)
Definition range (a b : nat) : list nat := seq a (b - a).

Module Elbow.

(** Line 119: one rate, from two Python floats. *)
Definition rate (prev cur : float) : result float :=
  (d <- Float.truediv (Float.sub prev cur) prev ;;
   Returned (Float.mul d (Float.of_Z 100)))%result.

(** Lines 117 to 120: [rates[j]] is computed from [inertias[j]] and
    [inertias[j+1]], for [i = j + 1] in [range(1, len(inertias))]. *)
Definition rates (inertias : list float) : result (list float) :=
  mapM (fun i => rate (nth (i - 1) inertias NaN) (nth i inertias NaN))
       (range 1 (List.length inertias)).

(** Line 123. *)
Definition threshold (rates : list float) : float :=
  Float.mul (Numpy.mean rates) (Float.fin (1 # 2)).

(** Lines 124 to 127: the loop over [enumerate(rates)], entered at index
    [i]; the value is the [i + 2] assigned before [break], if any. *)
Fixpoint scan (i : nat) (rates : list float) (threshold : float) : option nat :=
  match rates with
  | [] => None
  | rate :: rest =>
      if (0 <? i)%nat && Float.ltb rate threshold
      then Some (i + 2)%nat
      else scan (S i) rest threshold
  end.

(** Lines 116 to 130 on the object: the scan overwrites [optimal_k] when it
    finds an index, and the default 4 is stored when [optimal_k] is still
    [None]. *)
Definition select (inertias : list float) (self : StartupClustering)
  : result StartupClustering :=
  (rs <- rates inertias ;;
   let self1 :=
     match scan 0 rs (threshold rs) with
     | Some k => set_optimal_k self k
     | None => self
     end in
   Returned (match optimal_k self1 with
             | None => set_optimal_k self1 4
             | Some _ => self1
             end))%result.

End Elbow.

Module Labels.

Local Open Scope string_scope.

(** Lines 204 to 217 for one cluster: [avg_funding] and [avg_rounds] are the
    cluster's means, [funding] and [rounds] are the columns
    [self.cluster_data['total_funding']] and
    [self.cluster_data['num_funding_rounds']] of the whole table. *)
Definition name_of (avg_funding avg_rounds : float) (funding rounds : list float)
  : string :=
  if Float.gtb avg_funding (quantile funding (75 # 100)) then
    if Float.gtb avg_rounds (quantile rounds (75 # 100))
    then "High-Growth Unicorns"
    else "Large Single-Round Players"
  else if Float.gtb avg_funding (quantile funding (50 # 100)) then
    "Mid-Tier Growth Startups"
  else if Float.gtb avg_rounds (quantile rounds (60 # 100)) then
    "Frequent Small-Round Startups"
  else
    "Early-Stage Ventures".

(** The decision list in the words of the specification: numbered rules,
    read top to bottom, the first rule whose condition holds gives the
    label, and the last rule has no condition. *)
Definition rules (mean_funding mean_rounds q75_funding q50_funding
                  q75_rounds q60_rounds : float) : list (bool * string) :=
  [ (Float.gtb mean_funding q75_funding && Float.gtb mean_rounds q75_rounds,
     "High-Growth Unicorns");
    (Float.gtb mean_funding q75_funding, "Large Single-Round Players");
    (Float.gtb mean_funding q50_funding, "Mid-Tier Growth Startups");
    (Float.gtb mean_rounds q60_rounds, "Frequent Small-Round Startups");
    (true, "Early-Stage Ventures") ].

Fixpoint first_match (rs : list (bool * string)) : option string :=
  match rs with
  | [] => None
  | (c, label) :: rest => if c then Some label else first_match rest
  end.

End Labels.

(** The rows of [d] whose [cluster] entry is [c]:
    [self.cluster_data[self.cluster_data['cluster'] == cluster]]. *)
Definition cluster_df (d : list StartupFeatures) (clusters : list nat) (c : nat)
  : list StartupFeatures :=
  map fst (filter (fun p => Nat.eqb (snd p) c) (combine d clusters)).

Definition total_funding_col (d : list StartupFeatures) : list float :=
  map total_funding d.

Definition num_funding_rounds_col (d : list StartupFeatures) : list float :=
  map (fun r => Float.of_nat (num_funding_rounds r)) d.

(** [sorted(self.cluster_data['cluster'].unique())]. *)
Definition sorted_unique (clusters : list nat) : list nat :=
  sorted Nat.leb (nodup Nat.eq_dec clusters).

(** The dictionary [cluster_names] built by lines 200 to 217, as the list of
    its items in insertion order. *)
Definition cluster_names (d : list StartupFeatures) (clusters : list nat)
  : list (nat * string) :=
  map (fun c =>
         let members := cluster_df d clusters c in
         let avg_funding := Pandas.mean (total_funding_col members) in
         let avg_rounds := Pandas.mean (num_funding_rounds_col members) in
         (c, Labels.name_of avg_funding avg_rounds
               (total_funding_col d) (num_funding_rounds_col d)))
      (sorted_unique clusters).

Fixpoint lookup (c : nat) (names : list (nat * string)) : option string :=
  match names with
  | [] => None
  | (c', s) :: rest => if Nat.eqb c' c then Some s else lookup c rest
  end.

Section Methods.

(** [np.log10] and the scikit-learn calls: [StandardScaler.fit_transform],
    the [inertia_] of [KMeans(n_clusters=k, random_state=42, n_init=10)]
    after [fit], and its [fit_predict]. *)
Variable log10 : float -> float.
Variable fit_transform : list (list float) -> result (list (list float)).
Variable KMeans_inertia : nat -> list (list float) -> result float.
Variable KMeans_fit_predict : nat -> list (list float) -> result (list nat).

Definition prepare_features : method (list StartupFeatures) :=
  fun self =>
    let sf := startup_features log10 (df self) in
    Returned (sf, set_cluster_data self sf).

Definition find_optimal_k (max_k : nat) : method (option nat) :=
  fun self =>
    match cluster_data self with
    | None => Raised TypeError
    | Some d =>
        (X_scaled <- fit_transform (scaling_input d) ;;
         inertias <- mapM (fun k => KMeans_inertia k X_scaled)
                          (range 2 (max_k + 1)) ;;
         self' <- Elbow.select inertias self ;;
         Returned (optimal_k self', self'))%result
    end.

(** The labels replace the fitted model as the returned value. *)
Definition train_kmeans (n_clusters : option nat) : method (list nat) :=
  fun self =>
    let n :=
      match n_clusters with
      | Some n => n
      | None =>
          match optimal_k self with
          | Some k => if Nat.eqb k 0 then 4%nat else k
          | None => 4%nat
          end
      end in
    match cluster_data self with
    | None => Raised TypeError
    | Some d =>
        (X_scaled <- fit_transform (scaling_input d) ;;
         labels <- KMeans_fit_predict n X_scaled ;;
         Returned (labels, set_cluster self labels))%result
    end.

(** The dictionary of names replaces the summary table as the returned
    value; the [cluster_name] column is [cluster.map(cluster_names)]. *)
Definition analyze_clusters : method (list (nat * string)) :=
  fun self =>
    match cluster_data self, cluster self with
    | Some d, Some clusters =>
        let names := cluster_names d clusters in
        let col :=
          map (fun c => match lookup c names with
                        | Some s => s
                        | None => EmptyString
                        end) clusters in
        Returned (names, set_cluster_name self col)
    | Some _, None => Raised KeyError
    | None, _ => Raised TypeError
    end.

(** [run_complete_clustering], without the plotting and the file output. *)
Definition run_complete_clustering : method (list StartupFeatures) :=
  fun self =>
    (r1 <- prepare_features self ;;
     r2 <- find_optimal_k 10 (snd r1) ;;
     r3 <- train_kmeans None (snd r2) ;;
     r4 <- analyze_clusters (snd r3) ;;
     Returned (fst r1, snd r4))%result.

End Methods.

(* ------------------------------------------------------------------ *)
(** ** The Standardizer *)

Module Standardizer.

(** Modelled from the spec: the scaler is scikit-learn's [StandardScaler],
    whose code is not among the repository's sources.  Section 4.2 of the
    specification: [fit] computes the mean and the standard deviation of
    every column, [transform] maps [v] to [(v - mean) / std], and to [0]
    when [std == 0], and [fitTransform] composes both.  The standard
    deviation is the square root of the population variance, so the
    parameters keep the variance and the test [std == 0] is made on it. *)
Record ScalingParameters : Type := mkParams {
  mean_ : list float;
  var_ : list float
}.

Section Scaler.

Variable sqrt : float -> float.

Definition column (j : nat) (X : list (list float)) : list float :=
  map (fun row => nth j row NaN) X.

Definition variance (xs : list float) : float :=
  let m := Numpy.mean xs in
  Numpy.mean (map (fun v => let d := Float.sub v m in Float.mul d d) xs).

(** Modelled from the spec: [fit], the mean and the variance of every
    column of the matrix. *)
Definition fit (X : list (list float)) : ScalingParameters :=
  let ncols := List.length (hd [] X) in
  {| mean_ := map (fun j => Numpy.mean (column j X)) (seq 0 ncols);
     var_ := map (fun j => variance (column j X)) (seq 0 ncols) |}.

(** Modelled from the spec: one value of [transform], [(v - mean) / std],
    and [0] for a column whose standard deviation is 0. *)
Definition scale_value (v mean var : float) : float :=
  if Float.eqb var Float.zero then Float.zero
  else Float.div (Float.sub v mean) (sqrt var).

(** Modelled from the spec: [transform], column by column. *)
Definition transform (X : list (list float)) (params : ScalingParameters)
  : list (list float) :=
  map (fun row =>
         map (fun j => scale_value (nth j row NaN)
                                   (nth j (mean_ params) NaN)
                                   (nth j (var_ params) NaN))
             (seq 0 (List.length row)))
      X.

(** Modelled from the spec: [fitTransform] composes [fit] and
    [transform]. *)
Definition fitTransform (X : list (list float)) : list (list float) :=
  transform X (fit X).

End Scaler.

End Standardizer.

(* ------------------------------------------------------------------ *)
(** ** [DataLoader._clean_amount] *)

(** Python string methods, on strings whose letters and blanks are ASCII. *)
Module PyStr.

Definition is_space (c : ascii) : bool :=
  let n := nat_of_ascii c in
  ((n =? 32) || ((9 <=? n) && (n <=? 13)) || ((28 <=? n) && (n <=? 31)))%nat.

Fixpoint lstrip (s : string) : string :=
  match s with
  | EmptyString => EmptyString
  | String c t => if is_space c then lstrip t else s
  end.

Fixpoint rstrip (s : string) : string :=
  match s with
  | EmptyString => EmptyString
  | String c t =>
      match rstrip t with
      | EmptyString => if is_space c then EmptyString else String c EmptyString
      | t' => String c t'
      end
  end.

Definition strip (s : string) : string := rstrip (lstrip s).

Definition upper_char (c : ascii) : ascii :=
  let n := nat_of_ascii c in
  if ((97 <=? n) && (n <=? 122))%nat then ascii_of_nat (n - 32) else c.

Fixpoint upper (s : string) : string :=
  match s with
  | EmptyString => EmptyString
  | String c t => String (upper_char c) (upper t)
  end.

(** [sub in s]. *)
Fixpoint contains (sub s : string) : bool :=
  if String.prefix sub s then true
  else match s with
       | EmptyString => false
       | String _ t => contains sub t
       end.

(** [s.replace(old, new)] for a non-empty [old]: the occurrences are
    replaced from left to right without overlap; [skip] counts the
    characters of a matched occurrence still to be dropped. *)
Fixpoint replace_from (old new : string) (skip : nat) (s : string) : string :=
  match s with
  | EmptyString => EmptyString
  | String c t =>
      match skip with
      | S k => replace_from old new k t
      | O =>
          if String.prefix old s
          then new ++ replace_from old new (String.length old - 1) t
          else String c (replace_from old new 0 t)
      end
  end.

Definition replace (old new s : string) : string := replace_from old new 0 s.

End PyStr.

(** A scalar of the raw amount column: [None]/[NaN], a Python [int] of any
    size, a Python [float], or any other scalar, which the function reads
    through its [str()]. *)
Inductive cell : Type :=
| CNone
| CInt (z : Z)
| CFloat (x : float)
| CStr (s : string).

(** [pd.isna]. *)
Definition isna (amount : cell) : bool :=
  match amount with
  | CNone => true
  | CFloat x => isnan x
  | _ => false
  end.

Module DataLoader.

Local Open Scope string_scope.
Import PyStr.

(** Line 192: the currency symbols and the commas are removed. *)
Definition without_symbols (amount_str : string) : string :=
  replace "," "" (replace "₹" "" (replace "$" "" amount_str)).

(** Lines 192 to 210: the text after symbol removal and the multiplier
    chosen by the first branch of the [if]/[elif] chain that applies. *)
Definition scaled_text (amount_str : string) : Z * string :=
  let amount_str := replace "," "" (replace "₹" "" (replace "$" "" amount_str)) in
  if contains "B" amount_str || contains "BILLION" amount_str then
    (1000000000, replace "BILLION" "" (replace "B" "" amount_str))
  else if contains "M" amount_str || contains "MILLION" amount_str then
    (1000000, replace "MILLION" "" (replace "M" "" amount_str))
  else if contains "K" amount_str || contains "THOUSAND" amount_str then
    (1000, replace "THOUSAND" "" (replace "K" "" amount_str))
  else if contains "CR" amount_str || contains "CRORE" amount_str then
    (10000000, replace "CRORE" "" (replace "CR" "" amount_str))
  else if contains "L" amount_str || contains "LAKH" amount_str then
    (100000, replace "LAKH" "" (replace "L" "" amount_str))
  else
    (1, amount_str).

Section CleanAmount.

(** Python's [float(str)]: the parsed number, or [ValueError]. *)
Variable float_of_str : string -> result float.

(** Lines 212 to 215. *)
Definition parse_scaled (p : Z * string) : result float :=
  (x <- float_of_str (strip (snd p)) ;;
   Returned (Float.times x (Float.of_Z (fst p))))%result.

(** Line 187, [float(amount)], is outside the [try]: what it raises leaves
    the function. *)
Definition _clean_amount (amount : cell) : result float :=
  if isna amount then Returned Float.zero
  else
    match amount with
    | CInt n => Float.float_of_int n
    | CFloat x => Returned x
    | CNone => Returned Float.zero
    | CStr s =>
        let amount_str := upper (strip s) in
        Returned (try_except (parse_scaled (scaled_text amount_str)) Float.zero)
    end.

End CleanAmount.

End DataLoader.

(** The part of Python's [float(str)] that reads an upper-cased decimal
    literal: an optional sign, then [INF], [INFINITY], [NAN], or digits
    with an optional point and an optional exponent.  It instantiates
    [float_of_str] in the examples. *)
Module Decimal.

Definition digit (c : ascii) : option Z :=
  let n := nat_of_ascii c in
  if ((48 <=? n) && (n <=? 57))%nat then Some (Z.of_nat (n - 48)) else None.

(** The longest prefix of digits: its value after [acc], its length after
    [count], and the rest of the string. *)
Fixpoint digits (acc : Z) (count : nat) (s : string) : Z * nat * string :=
  match s with
  | EmptyString => (acc, count, s)
  | String c t =>
      match digit c with
      | Some d => digits (10 * acc + d) (S count) t
      | None => (acc, count, s)
      end
  end.

Definition sign (s : string) : bool * string :=
  match s with
  | String "-"%char t => (true, t)
  | String "+"%char t => (false, t)
  | _ => (false, s)
  end.

Definition exponent (s : string) : option Z :=
  match s with
  | EmptyString => Some 0
  | String "E"%char t =>
      let '(neg, t1) := sign t in
      match digits 0 0 t1 with
      | (_, O, _) => None
      | (e, S _, EmptyString) => Some (if neg then - e else e)
      | _ => None
      end
  | _ => None
  end.

Definition pow10 (e : Z) : Q :=
  if e <? 0 then 1 # Z.to_pos (10 ^ (- e)) else inject_Z (10 ^ e).

Definition magnitude (s : string) : option float :=
  if String.eqb s "INF"%string || String.eqb s "INFINITY"%string then Some PInf
  else if String.eqb s "NAN"%string then Some NaN
  else
    let '(i, ni, r1) := digits 0 0 s in
    let '(f, nf, r2) :=
      match r1 with
      | String "."%char t => digits 0 0 t
      | _ => (0, O, r1)
      end in
    match (ni + nf)%nat, exponent r2 with
    | S _, Some e =>
        Some (Float.in_range
                (Float.fin ((inject_Z i + inject_Z f * pow10 (- Z.of_nat nf))
                            * pow10 e)))
    | _, _ => None
    end.

Definition float_of_str (s : string) : result float :=
  let '(neg, t) := sign s in
  match magnitude t with
  | Some x => Returned (if neg then Float.opp x else x)
  | None => Raised ValueError
  end.

End Decimal.


(* ------------------------------------------------------------------ *)
(** ** Vocabulary of the statements and example data *)

(** The first cluster count that [find_optimal_k] tries: [range(2, ...)]. *)
Definition kMin : nat := 2.

(** [i] is the first index after index 0 whose rate is below the threshold. *)
Definition first_below (rates : list float) (threshold : float) (i : nat) : Prop :=
  (0 < i < List.length rates)%nat /\
  Float.ltb (nth i rates NaN) threshold = true /\
  forall j, (0 < j < i)%nat -> Float.ltb (nth j rates NaN) threshold = false.


(** The value a method returns, without the object. *)
Definition value_of {A : Type} (r : result (A * StartupClustering)) : result A :=
  match r with
  | Returned (a, _) => Returned a
  | Raised e => Raised e
  end.


Module Examples.

Local Open Scope string_scope.


(** Two startups, four rounds, three of them without an amount. *)
Definition missing_amounts : list DF.row :=
  [ DF.mk "Acme" NaN 2020 "Edtech" "Pune";
    DF.mk "Zeta" (Float.of_Z 500000) 2019 "Fintech" "Mumbai";
    DF.mk "Acme" NaN 2021 "Edtech" "Pune";
    DF.mk "Zeta" NaN 2020 "Fintech" "Mumbai" ].

(** Two rounds of 1e308 each: finite amounts whose sum is beyond the range
    of a float. *)
Definition huge_rounds : list DF.row :=
  [ DF.mk "A" (Float.of_int (10 ^ 308)) 2019 "Fintech" "Bengaluru";
    DF.mk "A" (Float.of_int (10 ^ 308)) 2021 "Fintech" "Bengaluru" ].

(** Two rounds whose years are [2^63] apart, and two rounds whose years are
    the ends of the [int64] range. *)
Definition distant_years : list DF.row :=
  [ DF.mk "A" (Float.of_Z 1000000) 0 "Fintech" "Bengaluru";
    DF.mk "A" (Float.of_Z 3000000) (2 ^ 63 - 1) "Fintech" "Bengaluru" ].

Definition extreme_years : list DF.row :=
  [ DF.mk "A" (Float.of_Z 1000000) (- 2 ^ 63) "Fintech" "Bengaluru";
    DF.mk "A" (Float.of_Z 3000000) (2 ^ 63 - 1) "Fintech" "Bengaluru" ].

(** Three startups, five rounds, names out of order. *)
Definition funding_table : list DF.row :=
  [ DF.mk "Zeta" (Float.of_Z 500000) 2020 "Fintech" "Mumbai";
    DF.mk "Acme" (Float.of_Z 1000000) 2018 "Edtech" "Pune";
    DF.mk "Zeta" (Float.of_Z 1500000) 2017 "Fintech" "Mumbai";
    DF.mk "Mint" (Float.of_Z 0) 2021 "Health" "Delhi";
    DF.mk "Acme" (Float.of_Z 250000) 2018 "Edtech" "Pune" ].

(** An inertia curve whose second rate falls below the threshold. *)
Definition elbow_inertias : list float :=
  [ Float.of_Z 100; Float.of_Z 50; Float.of_Z 45; Float.of_Z 44 ].


(** A feature row whose average funding is NaN: the row of a startup whose
    only amount is NaN. *)
Definition nan_features : StartupFeatures :=
  {| startup_name := "Acme";
     funding_amount_usd_sum := Float.zero;
     funding_amount_usd_mean := NaN;
     funding_amount_usd_count := 0;
     year_min := 2020;
     year_max := 2020;
     industry_first := "Edtech";
     city_first := "Pune";
     total_funding := Float.zero;
     avg_funding_per_round := NaN;
     num_funding_rounds := 0;
     years_active := 1;
     funding_per_year := Float.zero;
     log_total_funding := Float.zero;
     log_avg_funding := NaN |}.


(** A feature matrix whose third column is constant. *)
Definition constant_column : list (list float) :=
  [ [ Float.of_Z 1; Float.of_Z 4; Float.of_Z 7 ];
    [ Float.of_Z 2; Float.of_Z 9; Float.of_Z 7 ];
    [ Float.of_Z 6; Float.of_Z 5; Float.of_Z 7 ] ].

(** A feature row with the given name, total funding and number of rounds,
    all in one year. *)
Definition entity (name : string) (total : Z) (rounds : nat) : StartupFeatures :=
  let t := Float.of_Z total in
  let m := Float.div t (Float.of_nat rounds) in
  {| startup_name := name;
     funding_amount_usd_sum := t;
     funding_amount_usd_mean := m;
     funding_amount_usd_count := rounds;
     year_min := 2020;
     year_max := 2020;
     industry_first := "Fintech";
     city_first := "Mumbai";
     total_funding := t;
     avg_funding_per_round := m;
     num_funding_rounds := rounds;
     years_active := 1;
     funding_per_year := t;
     log_total_funding := NaN;
     log_avg_funding := NaN |}.

(** Eight startups in four clusters: high funding with many rounds, middle
    funding, low funding with many rounds, low funding with one round. *)
Definition eight_startups : list StartupFeatures :=
  [ entity "S1" 1000 6; entity "S2" 500 1; entity "S3" 100 3; entity "S4" 10 1;
    entity "S5" 900 7; entity "S6" 450 1; entity "S7" 90 5; entity "S8" 20 1 ].

Definition eight_clusters : list nat := [0; 1; 2; 3; 0; 1; 2; 3]%nat.

End Examples.

(** The records of the funding table that carry a given startup name. *)
Definition records_of (name : string) (df : list DF.row) : list DF.row :=
  filter (fun r => String.eqb (DF.startup_name r) name) df.

(** A record with an amount: its [funding_amount_usd] is not NaN. *)
Definition has_amount (r : DF.row) : bool :=
  negb (isnan (DF.funding_amount_usd r)).

(** The five names that [analyze_clusters] can give. *)
Definition cluster_labels : list string :=
  [ "High-Growth Unicorns"%string;
    "Large Single-Round Players"%string;
    "Mid-Tier Growth Startups"%string;
    "Frequent Small-Round Startups"%string;
    "Early-Stage Ventures"%string ].

(** Stand-ins for the scikit-learn calls in example runs: a scaler that
    rejects the empty matrix, as scikit-learn does, and returns any other
    matrix as it is; a KMeans whose inertias follow the example curve 100,
    50, 45, 44 and then stay at 44; a KMeans that puts row [i] in cluster
    [i mod k]. *)
Module ExampleRun.

Definition scaler (X : list (list float)) : result (list (list float)) :=
  match X with
  | [] => Raised ValueError
  | _ => Returned X
  end.

Definition inertia (k : nat) (X : list (list float)) : result float :=
  Returned (nth (k - 2) Examples.elbow_inertias (Float.of_Z 44)).

Definition fit_predict (k : nat) (X : list (list float)) : result (list nat) :=
  Returned (map (fun i => Nat.modulo i k) (seq 0 (List.length X))).

Definition log10 (x : float) : float := x.

End ExampleRun.

(** More Python string methods, on ASCII text: [lower], [title], and the
    characters of a string. *)
Module PyText.

(** [str.isascii()]: every character is below 128.  On such text Python's
    [strip], [upper], [lower] and [title], which follow Unicode, act on the
    characters as the functions of [PyStr] and of this module do. *)
Definition ascii_char (c : ascii) : bool := (nat_of_ascii c <? 128)%nat.

Fixpoint isascii (s : string) : bool :=
  match s with
  | EmptyString => true
  | String c t => ascii_char c && isascii t
  end.

Definition chars (s : string) : list ascii := list_ascii_of_string s.

(** [c] occurs in [s]. *)
Definition occurs (c : ascii) (s : string) : Prop := In c (chars s).

Definition is_upper (c : ascii) : bool :=
  let n := nat_of_ascii c in ((65 <=? n) && (n <=? 90))%nat.

Definition is_lower (c : ascii) : bool :=
  let n := nat_of_ascii c in ((97 <=? n) && (n <=? 122))%nat.

(** A cased character: a letter. *)
Definition is_cased (c : ascii) : bool := is_upper c || is_lower c.

Definition lower_char (c : ascii) : ascii :=
  if is_upper c then ascii_of_nat (nat_of_ascii c + 32) else c.

Fixpoint lower (s : string) : string :=
  match s with
  | EmptyString => EmptyString
  | String c t => String (lower_char c) (lower t)
  end.

(** [str.title()]: a cased character is upper-cased when the character
    before it is not cased, and lower-cased when it is. *)
Fixpoint title_from (previous_is_cased : bool) (s : string) : string :=
  match s with
  | EmptyString => EmptyString
  | String c t =>
      String (if previous_is_cased then lower_char c else PyStr.upper_char c)
             (title_from (is_cased c) t)
  end.

Definition title (s : string) : string := title_from false s.

End PyText.

(** ** [DataLoader.standardize_columns] and the text fields of
    [DataLoader.clean_data] *)
Module Columns.

Local Open Scope string_scope.
Import PyStr.

(** A Python dictionary from strings to strings, as the list of its items
    in insertion order. *)
Definition dict : Type := list (string * string).

Fixpoint dict_get (k : string) (d : dict) : option string :=
  match d with
  | [] => None
  | (k', v) :: rest => if String.eqb k' k then Some v else dict_get k rest
  end.

(** [d[k] = v]: the value of an existing key is replaced, a new key goes
    to the end. *)
Fixpoint dict_set (d : dict) (k v : string) : dict :=
  match d with
  | [] => [(k, v)]
  | (k', v') :: rest =>
      if String.eqb k' k then (k', v) :: rest else (k', v') :: dict_set rest k v
  end.

Definition values (d : dict) : list string := map snd d.

(** The [if]/[elif] chain of lines 58 to 81: the standard name that the
    lower-cased, stripped column name asks for. *)
Definition classify (col_lower : string) : option string :=
  if contains "startup" col_lower || contains "company" col_lower then
    Some "startup_name"
  else if contains "industry" col_lower || contains "sector" col_lower
          || contains "vertical" col_lower then
    Some "industry"
  else if contains "city" col_lower && negb (contains "location" col_lower) then
    Some "city"
  else if contains "state" col_lower then
    Some "state"
  else if contains "amount" col_lower
          || (contains "funding" col_lower && contains "usd" col_lower) then
    Some "funding_amount_usd"
  else if contains "round" col_lower || contains "stage" col_lower then
    Some "funding_round"
  else if contains "investor" col_lower then
    Some "investors"
  else if contains "date" col_lower then
    Some "date"
  else
    None.

(** The standard name asked for by a column: line 56, then the chain. *)
Definition wanted (col : string) : option string :=
  classify (strip (PyText.lower col)).

(** One turn of the loop of line 55: the name is given only if it is not
    yet among the values of the dictionary. *)
Definition visit (column_mapping : dict) (col : string) : dict :=
  match wanted col with
  | Some name =>
      if existsb (String.eqb name) (values column_mapping)
      then column_mapping
      else dict_set column_mapping col name
  | None => column_mapping
  end.

Definition column_mapping (columns : list string) : dict :=
  fold_left visit columns [].

(** [df.rename(columns=column_mapping)] on the column names. *)
Definition rename (column_mapping : dict) (columns : list string) : list string :=
  map (fun col => match dict_get col column_mapping with
                  | Some name => name
                  | None => col
                  end) columns.

(** The column names after [standardize_columns]. *)
Definition standardize_columns (columns : list string) : list string :=
  match column_mapping columns with
  | [] => columns
  | m => rename m columns
  end.

Definition standard_names : list string :=
  [ "startup_name"; "industry"; "city"; "state"; "funding_amount_usd";
    "funding_round"; "investors"; "date" ].

(** The first column, in order, that asks for a standard name. *)
Definition first_wanting (name : string) (columns : list string) : option string :=
  find (fun col => match wanted col with
                   | Some n => String.eqb n name
                   | None => false
                   end) columns.

(** Line 163 on one text value, [.str.strip().str.title()], for a value
    that is ASCII text. *)
Definition clean_text (s : string) : string := PyText.title (strip s).

End Columns.

(** What the loop keeps true of its dictionary: every key asks for its
    value, and no value is given twice. *)
Definition mapping_ok (d : Columns.dict) : Prop :=
  (forall c name, In (c, name) d -> Columns.wanted c = Some name) /\
  NoDup (Columns.values d).

(** Step 5 of [DataLoader.clean_data] on the rows of the funding table:
    the text columns among [startup_name], [industry] and [city] are
    stripped and title-cased. *)
Definition clean_row (r : DF.row) : DF.row :=
  DF.mk (Columns.clean_text (DF.startup_name r))
        (DF.funding_amount_usd r)
        (DF.year r)
        (Columns.clean_text (DF.industry r))
        (Columns.clean_text (DF.city r)).

Definition clean_text_fields (df : list DF.row) : list DF.row :=
  map clean_row df.

(** Two spellings of one startup, with a third startup between them. *)
Definition spelled_table : list DF.row :=
  [ DF.mk " paytech solutions"%string (Float.of_Z 100) 2019
          "fintech"%string "mumbai"%string;
    DF.mk "EduLearn"%string (Float.of_Z 50) 2020
          "Edtech"%string "Pune"%string;
    DF.mk "PayTech SOLUTIONS "%string (Float.of_Z 200) 2021
          "Fintech"%string "MUMBAI"%string ].

(** ** The investors column: written by [generate_dataset], read by
    [StartupEDA.analyze_investors] *)
Module Investors.

(** [s.split(',')], for a separator of one character: the pieces between
    the separators, at least one. *)
Fixpoint split (sep : ascii) (s : string) : list string :=
  match s with
  | EmptyString => [EmptyString]
  | String c t =>
      if Ascii.eqb c sep then EmptyString :: split sep t
      else match split sep t with
           | piece :: pieces => String c piece :: pieces
           | [] => [String c EmptyString]
           end
  end.

(** [sep.join(names)]. *)
Fixpoint join (sep : string) (names : list string) : string :=
  match names with
  | [] => EmptyString
  | [name] => name
  | name :: rest => name ++ sep ++ join sep rest
  end.

(** The cell written by [generate_dataset]: [", ".join(...)]. *)
Definition written (names : list string) : string := join ", " names.

(** The names read from one cell by [analyze_investors]:
    [[inv.strip() for inv in investors_str.split(',')]]. *)
Definition investors_list (investors_str : string) : list string :=
  map PyStr.strip (split "," investors_str).

(** [all_investors] over the cells of the column that are present. *)
Definition all_investors (column : list (option string)) : list string :=
  flat_map (fun cell => match cell with
                        | Some investors_str => investors_list investors_str
                        | None => []
                        end) column.

End Investors.

(* ------------------------------------------------------------------ *)
(** * Theorems *)

(** ** Lists, sorting and the error monad *)

Lemma mapM_Returned {A B : Type} (f : A -> result B) (l : list A) (ys : list B) :
  mapM f l = Returned ys ->
  List.length ys = List.length l /\
  forall j dx dy, (j < List.length l)%nat -> f (nth j l dx) = Returned (nth j ys dy).
Proof.
  revert ys. induction l as [| x t IH]; intros ys H; simpl in H.
  - injection H as <-. split; [reflexivity | intros j dx dy Hj; simpl in Hj; lia].
  - destruct (f x) as [y | e] eqn:Hx; [| discriminate].
    destruct (mapM f t) as [ys' | e] eqn:Ht; [| discriminate].
    injection H as <-. destruct (IH ys' eq_refl) as [Hlen Hnth].
    split; [simpl; now rewrite Hlen |].
    intros [| j] dx dy Hj; simpl; [exact Hx |].
    apply Hnth. simpl in Hj. lia.
Qed.

Section InsertionSortFacts.

Context {A : Type} (leb : A -> A -> bool).

Lemma insert_perm (x : A) (l : list A) : Permutation (x :: l) (insert leb x l).
Proof.
  induction l as [| y t IH]; simpl; [apply Permutation_refl |].
  destruct (leb x y); [apply Permutation_refl |].
  eapply perm_trans; [apply perm_swap | apply perm_skip, IH].
Qed.

Lemma sorted_perm (l : list A) : Permutation l (sorted leb l).
Proof.
  induction l as [| x t IH]; simpl; [apply perm_nil |].
  eapply perm_trans; [apply perm_skip, IH | apply insert_perm].
Qed.

End InsertionSortFacts.

(** ** The elbow selection *)

Lemma scan_first (rs : list float) (thr : float) :
  forall i j,
    (j < List.length rs)%nat -> (0 < i + j)%nat ->
    Float.ltb (nth j rs NaN) thr = true ->
    (forall j', (j' < j)%nat -> (0 < i + j')%nat ->
                Float.ltb (nth j' rs NaN) thr = false) ->
    Elbow.scan i rs thr = Some (i + j + 2)%nat.
Proof.
  induction rs as [| r t IH]; intros i j Hj Hpos Hlt Hmin; simpl in Hj; [lia |].
  simpl. destruct j as [| j].
  - simpl in Hlt. rewrite Hlt.
    replace (0 <? i)%nat with true by (symmetry; apply Nat.ltb_lt; lia).
    simpl. f_equal. lia.
  - assert (Hhead : ((0 <? i)%nat && Float.ltb r thr) = false).
    { destruct (0 <? i)%nat eqn:Hi; [| reflexivity]. simpl.
      apply Nat.ltb_lt in Hi. apply (Hmin 0%nat); lia. }
    rewrite Hhead. rewrite (IH (S i) j).
    + f_equal. lia.
    + lia.
    + lia.
    + exact Hlt.
    + intros j' Hj' Hp. apply (Hmin (S j')); lia.
Qed.


Lemma rates_nth (inertias rs : list float) :
  Elbow.rates inertias = Returned rs ->
  List.length rs = (List.length inertias - 1)%nat /\
  forall j, (j < List.length rs)%nat ->
            Elbow.rate (nth j inertias NaN) (nth (j + 1) inertias NaN)
            = Returned (nth j rs NaN).
Proof.
  unfold Elbow.rates, range. intros H.
  apply mapM_Returned in H. destruct H as [Hlen Hnth].
  rewrite length_seq in Hlen, Hnth. split; [exact Hlen |].
  intros j Hj. specialize (Hnth j 0%nat NaN ltac:(lia)).
  rewrite seq_nth in Hnth by lia.
  replace (1 + j - 1)%nat with j in Hnth by lia.
  replace (j + 1)%nat with (1 + j)%nat by lia. exact Hnth.
Qed.

Lemma select_found (inertias rs : list float) (self : StartupClustering) (k : nat) :
  Elbow.rates inertias = Returned rs ->
  Elbow.scan 0 rs (Elbow.threshold rs) = Some k ->
  Elbow.select inertias self = Returned (set_optimal_k self k).
Proof.
  intros Hr Hs. unfold Elbow.select. rewrite Hr. simpl. rewrite Hs. reflexivity.
Qed.


(** [find_optimal_k] is the elbow selection on the inertias that KMeans
    reports for [k] from 2 to [max_k], fitted on the scaled matrix; it
    returns the stored [optimal_k]. *)
Lemma find_optimal_k_selects
  (fit_transform : list (list float) -> result (list (list float)))
  (KMeans_inertia : nat -> list (list float) -> result float)
  (max_k : nat) (self : StartupClustering)
  (d : list StartupFeatures) (X_scaled : list (list float))
  (inertias : list float) :
  cluster_data self = Some d ->
  fit_transform (scaling_input d) = Returned X_scaled ->
  mapM (fun k => KMeans_inertia k X_scaled) (range kMin (max_k + 1))
  = Returned inertias ->
  find_optimal_k fit_transform KMeans_inertia max_k self
  = bind (Elbow.select inertias self)
         (fun self' => Returned (optimal_k self', self')).
Proof.
  intros Hd Hft Hkm. unfold find_optimal_k. rewrite Hd, Hft. simpl.
  unfold kMin in Hkm. now rewrite Hkm.
Qed.

(** C1, amended.  Inside [find_optimal_k], entry [i] of the list [rates]
    (counted from 0) is [(inertias[i] - inertias[i+1]) / inertias[i] * 100],
    the threshold is half the mean of [rates], and the first index [i > 0]
    whose rate is below the threshold makes the method store
    [kMin + i = i + 2] in [optimal_k], whatever it held before. *)
Theorem elbow_first_below_selects_kMin_plus_i
  (inertias rs : list float) (self : StartupClustering) (i : nat) :
  Elbow.rates inertias = Returned rs ->
  first_below rs (Elbow.threshold rs) i ->
  (forall j, (j < List.length rs)%nat ->
     Elbow.rate (nth j inertias NaN) (nth (j + 1) inertias NaN)
     = Returned (nth j rs NaN)) /\
  Elbow.threshold rs = Float.mul (Numpy.mean rs) (Float.fin (1 # 2)) /\
  Elbow.select inertias self = Returned (set_optimal_k self (kMin + i)) /\
  optimal_k (set_optimal_k self (kMin + i)) = Some (i + 2)%nat.
Proof.
  intros Hr [[Hpos Hlen] [Hlt Hmin]].
  split; [apply (rates_nth inertias rs Hr) |].
  split; [reflexivity |].
  split.
  - apply (select_found inertias rs self (kMin + i) Hr).
    rewrite (scan_first rs (Elbow.threshold rs) 0 i Hlen); try assumption.
    + f_equal. unfold kMin. lia.
    + intros j' Hj' Hp. apply Hmin. lia.
  - simpl. f_equal. unfold kMin. lia.
Qed.

(** C1, witness: the curve 100, 50, 45, 44 has rates 50, 10, 20/9, its
    threshold is 280/27, and index 1 is the first one below it. *)
Lemma elbow_first_below_selects_kMin_plus_i_witness :
  Elbow.rates Examples.elbow_inertias
  = Returned [Fin 50; Fin 10; Fin (20 # 9)] /\
  first_below [Fin 50; Fin 10; Fin (20 # 9)]
              (Elbow.threshold [Fin 50; Fin 10; Fin (20 # 9)]) 1 /\
  Elbow.select Examples.elbow_inertias (init [])
  = Returned (set_optimal_k (init []) (kMin + 1)).
Proof.
  assert (Hr : Elbow.rates Examples.elbow_inertias
               = Returned [Fin 50; Fin 10; Fin (20 # 9)]) by reflexivity.
  assert (Hf : first_below [Fin 50; Fin 10; Fin (20 # 9)]
                 (Elbow.threshold [Fin 50; Fin 10; Fin (20 # 9)]) 1).
  { split; [simpl; lia |]. split; [reflexivity |]. intros j Hj. lia. }
  split; [exact Hr |]. split; [exact Hf |].
  exact (proj1 (proj2 (proj2
    (elbow_first_below_selects_kMin_plus_i
       Examples.elbow_inertias _ (init []) 1%nat Hr Hf)))).
Defined.

(** C1, counterexample to the offset [kMin + i + 1]: for the inertia curve
    100, 50, 45, 44 the first index after 0 whose rate is below the
    threshold is [i = 1], and the method stores 3, not [kMin + 1 + 1 = 4]. *)
Lemma elbow_offset_counterexample :
  Elbow.rates Examples.elbow_inertias
  = Returned [Fin 50; Fin 10; Fin (20 # 9)] /\
  Elbow.threshold [Fin 50; Fin 10; Fin (20 # 9)] = Fin (280 # 27) /\
  first_below [Fin 50; Fin 10; Fin (20 # 9)] (Fin (280 # 27)) 1 /\
  Elbow.select Examples.elbow_inertias (init [])
  = Returned (set_optimal_k (init []) 3) /\
  optimal_k (set_optimal_k (init []) 3) <> Some (kMin + 1 + 1)%nat.
Proof.
  split; [reflexivity |]. split; [reflexivity |]. split.
  - split; [simpl; lia |]. split; [reflexivity |]. intros j Hj. lia.
  - split; [reflexivity | discriminate].
Qed.






(** ** The labelling of clusters *)

Lemma name_of_first_match (avg_funding avg_rounds : float) (funding rounds : list float) :
  Labels.first_match
    (Labels.rules avg_funding avg_rounds
       (quantile funding (75 # 100)) (quantile funding (50 # 100))
       (quantile rounds (75 # 100)) (quantile rounds (60 # 100)))
  = Some (Labels.name_of avg_funding avg_rounds funding rounds).
Proof.
  unfold Labels.rules, Labels.name_of. simpl.
  destruct (Float.gtb avg_funding (quantile funding (75 # 100)));
    destruct (Float.gtb avg_rounds (quantile rounds (75 # 100)));
    destruct (Float.gtb avg_funding (quantile funding (50 # 100)));
    destruct (Float.gtb avg_rounds (quantile rounds (60 # 100)));
    reflexivity.
Qed.

Lemma lookup_map_key (f : nat -> string) (c : nat) (l : list nat) :
  In c l -> lookup c (map (fun k => (k, f k)) l) = Some (f c).
Proof.
  induction l as [| k t IH]; intros Hin; [destruct Hin |].
  simpl. destruct (Nat.eqb k c) eqn:Hk.
  - apply Nat.eqb_eq in Hk. now subst.
  - destruct Hin as [-> | Hin]; [now rewrite Nat.eqb_refl in Hk | now apply IH].
Qed.

Lemma sorted_unique_In (clusters : list nat) (c : nat) :
  In c (sorted_unique clusters) <-> In c clusters.
Proof.
  unfold sorted_unique. split; intros H.
  - apply (nodup_In Nat.eq_dec).
    eapply Permutation_in; [apply Permutation_sym, sorted_perm | exact H].
  - eapply Permutation_in; [apply sorted_perm |].
    now apply nodup_In.
Qed.

(** C2.  The name stored for a cluster is the label of the first rule that
    matches in the ordered list of five rules, evaluated on the means of
    [total_funding] and [num_funding_rounds] over the members of the cluster
    and on the 75th/50th percentiles of [total_funding] and the 75th/60th
    percentiles of [num_funding_rounds] over the whole table. *)
Theorem cluster_name_is_first_matching_rule
  (d : list StartupFeatures) (clusters : list nat) (c : nat) :
  In c clusters ->
  lookup c (cluster_names d clusters)
  = Labels.first_match
      (Labels.rules
         (Pandas.mean (total_funding_col (cluster_df d clusters c)))
         (Pandas.mean (num_funding_rounds_col (cluster_df d clusters c)))
         (quantile (total_funding_col d) (75 # 100))
         (quantile (total_funding_col d) (50 # 100))
         (quantile (num_funding_rounds_col d) (75 # 100))
         (quantile (num_funding_rounds_col d) (60 # 100))).
Proof.
  intros Hin. rewrite name_of_first_match. unfold cluster_names.
  apply (lookup_map_key
           (fun k =>
              Labels.name_of
                (Pandas.mean (total_funding_col (cluster_df d clusters k)))
                (Pandas.mean (num_funding_rounds_col (cluster_df d clusters k)))
                (total_funding_col d) (num_funding_rounds_col d))).
  now apply sorted_unique_In.
Qed.

(** C2, witness: cluster 2 of the eight example startups has low funding
    and many rounds. *)
Lemma cluster_name_is_first_matching_rule_witness :
  In 2%nat Examples.eight_clusters /\
  lookup 2 (cluster_names Examples.eight_startups Examples.eight_clusters)
  = Some "Frequent Small-Round Startups"%string.
Proof.
  assert (Hin : In 2%nat Examples.eight_clusters) by (simpl; tauto).
  split; [exact Hin |].
  rewrite (cluster_name_is_first_matching_rule
             Examples.eight_startups Examples.eight_clusters 2 Hin).
  reflexivity.
Defined.

(** The labelling decision table on the eight example startups. *)
Example labelling_decision_table :
  cluster_names Examples.eight_startups Examples.eight_clusters
  = [ (0%nat, "High-Growth Unicorns"%string);
      (1%nat, "Mid-Tier Growth Startups"%string);
      (2%nat, "Frequent Small-Round Startups"%string);
      (3%nat, "Early-Stage Ventures"%string) ].
Proof. reflexivity. Qed.

(** Each rule of the list in turn, on arbitrary data. *)
Lemma rules_by_case (mf mr q75f q50f q75r q60r : float) :
  let label := Labels.first_match (Labels.rules mf mr q75f q50f q75r q60r) in
  (Float.gtb mf q75f = true -> Float.gtb mr q75r = true ->
   label = Some "High-Growth Unicorns"%string) /\
  (Float.gtb mf q75f = true -> Float.gtb mr q75r = false ->
   label = Some "Large Single-Round Players"%string) /\
  (Float.gtb mf q75f = false -> Float.gtb mf q50f = true ->
   label = Some "Mid-Tier Growth Startups"%string) /\
  (Float.gtb mf q75f = false -> Float.gtb mf q50f = false ->
   Float.gtb mr q60r = true ->
   label = Some "Frequent Small-Round Startups"%string) /\
  (Float.gtb mf q75f = false -> Float.gtb mf q50f = false ->
   Float.gtb mr q60r = false ->
   label = Some "Early-Stage Ventures"%string).
Proof.
  simpl. repeat split; intros; repeat
    match goal with H : _ = _ |- _ => rewrite H; clear H end; reflexivity.
Qed.

(** ** Feature preparation *)

Lemma unique_In (ss : list string) (x : string) :
  In x (Pandas.unique ss) <-> In x ss.
Proof.
  induction ss as [| s t IH]; simpl; [tauto |].
  rewrite filter_In, IH. split.
  - intros [H | [H _]]; auto.
  - intros [H | H]; [now left |].
    destruct (String.eqb x s) eqn:E.
    + apply String.eqb_eq in E. now left.
    + right. now split.
Qed.

Lemma unique_NoDup (ss : list string) : NoDup (Pandas.unique ss).
Proof.
  induction ss as [| s t IH]; simpl; constructor.
  - rewrite filter_In. intros [_ H]. now rewrite String.eqb_refl in H.
  - now apply NoDup_filter.
Qed.

Lemma features_of_group_name (log10 : float -> float) (g : string * list DF.row) :
  startup_name (features_of_group log10 g) = fst g.
Proof. now destruct g. Qed.

Lemma startup_features_names (log10 : float -> float) (df : list DF.row) :
  map startup_name (startup_features log10 df)
  = sorted String.leb (Pandas.unique (map DF.startup_name df)).
Proof.
  unfold startup_features, Pandas.groupby. rewrite !map_map.
  rewrite <- (map_id (sorted String.leb _)) at 2.
  apply map_ext. intros k. apply features_of_group_name.
Qed.

(** Every feature row is the row of a group that holds at least one record
    of the table. *)
Lemma startup_features_inv (log10 : float -> float) (df : list DF.row)
  (e : StartupFeatures) :
  In e (startup_features log10 df) ->
  exists k r rows,
    e = features_of_group log10 (k, r :: rows) /\
    r :: rows = filter (fun x => String.eqb (DF.startup_name x) k) df.
Proof.
  unfold startup_features, Pandas.groupby. rewrite map_map.
  intros H. apply in_map_iff in H. destruct H as [k [<- Hk]].
  apply (Permutation_in _ (Permutation_sym (sorted_perm String.leb _))) in Hk.
  apply unique_In, in_map_iff in Hk. destruct Hk as [r [Hr Hin]].
  assert (Hf : In r (filter (fun x => String.eqb (DF.startup_name x) k) df)).
  { apply filter_In. split; [exact Hin |]. now apply String.eqb_eq. }
  destruct (filter (fun x => String.eqb (DF.startup_name x) k) df) as [| r0 rows] eqn:E;
    [destruct Hf |].
  exists k, r0, rows. now rewrite E.
Qed.

(** C5.  The feature table has one row per distinct startup name of the
    funding table: its names are pairwise different, they are exactly the
    names that occur in the funding table, and their number is the number
    of distinct names. *)
Theorem one_feature_row_per_startup (log10 : float -> float) (df : list DF.row) :
  NoDup (map startup_name (startup_features log10 df)) /\
  (forall name, In name (map startup_name (startup_features log10 df))
                <-> In name (map DF.startup_name df)) /\
  List.length (startup_features log10 df)
  = List.length (nodup string_dec (map DF.startup_name df)).
Proof.
  rewrite <- (length_map startup_name), startup_features_names.
  pose proof (sorted_perm String.leb (Pandas.unique (map DF.startup_name df))) as P.
  assert (Hmem : forall name,
            In name (sorted String.leb (Pandas.unique (map DF.startup_name df)))
            <-> In name (map DF.startup_name df)).
  { intros name. split; intros H.
    - apply unique_In. exact (Permutation_in _ (Permutation_sym P) H).
    - apply unique_In in H. exact (Permutation_in _ P H). }
  assert (Hnd : NoDup (sorted String.leb (Pandas.unique (map DF.startup_name df)))).
  { exact (Permutation_NoDup P (unique_NoDup _)). }
  split; [exact Hnd |]. split; [exact Hmem |].
  apply Permutation_length, NoDup_Permutation.
  - exact Hnd.
  - apply NoDup_nodup.
  - intros name. rewrite Hmem. symmetry. apply nodup_In.
Qed.

(** The three startups of the example table, in sorted order. *)
Example funding_table_names :
  forall log10,
    map startup_name (startup_features log10 Examples.funding_table)
    = ["Acme"%string; "Mint"%string; "Zeta"%string].
Proof. reflexivity. Qed.

Lemma fold_min_le (t : list Z) : forall a, fold_left Z.min t a <= a.
Proof.
  induction t as [| y t IH]; intros a; simpl; [lia |].
  specialize (IH (Z.min a y)). lia.
Qed.

Lemma fold_max_ge (t : list Z) : forall a, a <= fold_left Z.max t a.
Proof.
  induction t as [| y t IH]; intros a; simpl; [lia |].
  specialize (IH (Z.max a y)). lia.
Qed.

Lemma min_le_max (y : Z) (t : list Z) : Pandas.min (y :: t) <= Pandas.max (y :: t).
Proof.
  simpl. pose proof (fold_min_le t y). pose proof (fold_max_ge t y). lia.
Qed.

(** Within the range of [int64] nothing wraps. *)
Lemma wrap_small (z : Z) : - 2 ^ 63 <= z < 2 ^ 63 -> Int64.wrap z = z.
Proof.
  intros H. unfold Int64.wrap.
  change (2 ^ 63) with 9223372036854775808 in *.
  change (2 ^ 64) with 18446744073709551616.
  rewrite Z.mod_small by lia. lia.
Qed.

Lemma years_active_small (ymin ymax : Z) :
  ymin <= ymax -> ymax - ymin < 2 ^ 63 - 1 ->
  Int64.add (Int64.sub ymax ymin) 1 = ymax - ymin + 1.
Proof.
  intros Hle Hspan. unfold Int64.add, Int64.sub.
  change (2 ^ 63) with 9223372036854775808 in Hspan.
  rewrite (wrap_small (ymax - ymin));
    [| change (2 ^ 63) with 9223372036854775808; lia].
  apply wrap_small. change (2 ^ 63) with 9223372036854775808. lia.
Qed.

(** Rounding a positive integer to 53 significant bits leaves it positive. *)
Lemma nearest_int_positive (z : Z) : 1 <= z -> 1 <= Float.nearest_int z.
Proof.
  intros Hz. unfold Float.nearest_int.
  rewrite (Z.abs_eq z) by lia. rewrite (Z.sgn_pos z) by lia.
  set (e := Z.log2 z - 52).
  destruct (e <=? 0) eqn:He; [exact Hz |].
  apply Z.leb_gt in He.
  assert (Hpow : 0 < 2 ^ e) by (apply Z.pow_pos_nonneg; lia).
  assert (Hlog : 2 ^ Z.log2 z <= z) by (apply Z.log2_spec; lia).
  assert (Hmono : 2 ^ e <= 2 ^ Z.log2 z).
  { apply Z.pow_le_mono_r; [lia |]. unfold e. lia. }
  assert (Hm : 1 <= z / 2 ^ e).
  { apply Z.div_le_lower_bound; [exact Hpow | lia]. }
  destruct ((2 ^ (e - 1) <? z mod 2 ^ e)
            || (2 ^ (e - 1) =? z mod 2 ^ e) && Z.odd (z / 2 ^ e)); nia.
Qed.

Lemma of_int_nonzero (z : Z) :
  1 <= z -> Float.eqb (Float.of_int z) Float.zero = false.
Proof.
  intros Hz. pose proof (nearest_int_positive z Hz) as Hn.
  unfold Float.of_int, Float.zero, Float.of_Z, Float.eqb.
  destruct (Qeq_bool (inject_Z (Float.nearest_int z)) (inject_Z 0)) eqn:E;
    [| reflexivity].
  apply Qeq_bool_eq in E. unfold Qeq in E. simpl in E. lia.
Qed.

Lemma div_by_positive_int (t : Q) (z : Z) :
  1 <= z ->
  Float.div (Fin t) (Float.of_int z)
  = Fin (Qred (t / inject_Z (Float.nearest_int z))).
Proof.
  intros Hz. pose proof (nearest_int_positive z Hz) as Hn.
  unfold Float.div, Float.of_int, Qis_zero.
  destruct (Qeq_bool (inject_Z (Float.nearest_int z)) 0) eqn:E; [| reflexivity].
  apply Qeq_bool_eq in E. unfold Qeq in E. simpl in E. lia.
Qed.

(** A quotient by a positive number of years is finite exactly when the
    dividend is. *)
Lemma div_by_years_isfinite (x : float) (z : Z) :
  1 <= z -> isfinite (Float.div x (Float.of_int z)) = isfinite x.
Proof.
  intros Hz. destruct x as [t | | |].
  - now rewrite (div_by_positive_int t z Hz).
  - unfold Float.div, Float.of_int.
    now destruct (Qis_neg (inject_Z (Float.nearest_int z))).
  - unfold Float.div, Float.of_int.
    now destruct (Qis_neg (inject_Z (Float.nearest_int z))).
  - reflexivity.
Qed.

(** C6, amended.  For a row of the feature table whose years span less than
    [2^63 - 1], as calendar years do, [years_active], computed as
    [year_max - year_min + 1], is at least 1, the division that gives
    [funding_per_year] is not by zero, and [funding_per_year] is finite
    exactly when [total_funding] is. *)
Theorem years_active_positive_and_funding_per_year_finite
  (log10 : float -> float) (df : list DF.row) (e : StartupFeatures) :
  In e (startup_features log10 df) ->
  year_max e - year_min e < 2 ^ 63 - 1 ->
  years_active e = year_max e - year_min e + 1 /\
  1 <= years_active e /\
  funding_per_year e
  = Float.div (total_funding e) (Float.of_int (years_active e)) /\
  Float.eqb (Float.of_int (years_active e)) Float.zero = false /\
  isfinite (funding_per_year e) = isfinite (total_funding e).
Proof.
  intros Hin Hspan.
  destruct (startup_features_inv log10 df e Hin) as [k [r [rows [-> Hrows]]]].
  cbn [features_of_group years_active year_max year_min funding_per_year
       total_funding] in *.
  pose proof (min_le_max (DF.year r) (map DF.year rows)) as Hle.
  change (DF.year r :: map DF.year rows) with (map DF.year (r :: rows)) in Hle.
  rewrite (years_active_small _ _ Hle Hspan).
  assert (Hya : 1 <= Pandas.max (map DF.year (r :: rows))
                     - Pandas.min (map DF.year (r :: rows)) + 1) by lia.
  split; [reflexivity |]. split; [exact Hya |]. split; [reflexivity |].
  split; [exact (of_int_nonzero _ Hya) |].
  exact (div_by_years_isfinite _ _ Hya).
Qed.

(** C6, witness: the row of Zeta in the example table, active from 2017 to
    2020 with a total of 2,000,000. *)
Lemma years_active_positive_and_funding_per_year_finite_witness :
  map DF.year (records_of "Zeta" Examples.funding_table) = [2020; 2017] /\
  forall log10 : float -> float,
    let e := nth 2 (startup_features log10 Examples.funding_table)
                 Examples.nan_features in
    In e (startup_features log10 Examples.funding_table) /\
    year_max e - year_min e < 2 ^ 63 - 1 /\
    years_active e = 4 /\
    1 <= years_active e /\
    funding_per_year e = Fin 500000 /\
    isfinite (funding_per_year e) = true.
Proof.
  split; [reflexivity |]. intros log10 e.
  assert (Hin : In e (startup_features log10 Examples.funding_table)).
  { right. right. left. reflexivity. }
  assert (Hspan : year_max e - year_min e < 2 ^ 63 - 1) by reflexivity.
  pose proof (years_active_positive_and_funding_per_year_finite
                log10 Examples.funding_table e Hin Hspan) as [_ [H1 _]].
  split; [exact Hin |]. split; [exact Hspan |]. split; [reflexivity |].
  split; [exact H1 |]. split; reflexivity.
Defined.

(** C6, counterexample.  Two finite amounts of 1e308 add up to an infinity,
    and [funding_per_year] is infinite; two records in the years 0 and
    [2^63 - 1] give [years_active = -2^63]; and two records in the years
    [-2^63] and [2^63 - 1] give [years_active = 0], a division by zero. *)
Lemma years_active_and_funding_per_year_counterexample :
  Forall (fun r => isfinite (DF.funding_amount_usd r) = true)
         Examples.huge_rounds /\
  forall log10 : float -> float,
    (exists e,
       startup_features log10 Examples.huge_rounds = [e] /\
       years_active e = 3 /\
       total_funding e = PInf /\
       funding_per_year e = PInf /\
       isfinite (funding_per_year e) = false) /\
    (exists e,
       startup_features log10 Examples.distant_years = [e] /\
       years_active e = - 2 ^ 63 /\
       ~ 1 <= years_active e) /\
    (exists e,
       startup_features log10 Examples.extreme_years = [e] /\
       years_active e = 0 /\
       total_funding e = Fin 4000000 /\
       funding_per_year e = PInf /\
       isfinite (funding_per_year e) = false).
Proof.
  split; [repeat constructor |]. intros log10. split; [| split].
  - eexists. split; [reflexivity |].
    split; [reflexivity |]. split; [vm_compute; reflexivity |].
    split; [vm_compute; reflexivity | vm_compute; reflexivity].
  - eexists. split; [reflexivity |].
    split; [vm_compute; reflexivity |].
    cbn [years_active features_of_group]. vm_compute. intros H. now apply H.
  - eexists. split; [reflexivity |].
    split; [vm_compute; reflexivity |]. split; [vm_compute; reflexivity |].
    split; [vm_compute; reflexivity | vm_compute; reflexivity].
Qed.

(** A zero in the role of [years_active] would make the division give an
    infinity: the bound of the theorem is what keeps the quotient finite. *)
Example division_by_zero_years :
  Float.div (Float.of_Z 2000000) (Float.of_Z 0) = PInf.
Proof. reflexivity. Qed.

(** C3, amended.  [prepare_features] never raises: on every funding table
    it returns the feature table and stores it in [cluster_data]; on the
    empty funding table that feature table is empty. *)
Theorem prepare_features_returns_on_every_table
  (log10 : float -> float) (self : StartupClustering) :
  prepare_features log10 self
  = Returned (startup_features log10 (df self),
              set_cluster_data self (startup_features log10 (df self))) /\
  prepare_features log10 self <> Raised EmptyInputError /\
  startup_features log10 [] = [].
Proof.
  split; [reflexivity |]. split; [discriminate | reflexivity].
Qed.

(** C3, counterexample: on the empty funding table the grouping has no
    group and the method returns the empty feature table; it does not raise
    [EmptyInputError]. *)
Lemma empty_table_counterexample :
  Pandas.groupby [] = [] /\
  forall log10 : float -> float,
    prepare_features log10 (init [])
    = Returned ([], set_cluster_data (init []) []) /\
    prepare_features log10 (init []) <> Raised EmptyInputError.
Proof.
  split; [reflexivity |]. intros log10. split; [reflexivity | discriminate].
Qed.

(** ** The scenario of entity A *)

Local Open Scope R_scope.




Local Close Scope R_scope.


(** ** The scaling step *)









(** ** The Standardizer on a constant column *)

Lemma eqb_Fin_inv (x : float) (q : Q) :
  Float.eqb x (Fin q) = true -> exists q', x = Fin q' /\ (q' == q)%Q.
Proof.
  destruct x as [q' | | |]; simpl; try discriminate.
  intros H. exists q'. split; [reflexivity | now apply Qeq_bool_eq].
Qed.

Lemma eqb_Fin_intro (q' q : Q) : (q' == q)%Q -> Float.eqb (Fin q') (Fin q) = true.
Proof. intros H. simpl. now apply Qeq_eq_bool. Qed.

Lemma add_eqb (x y : float) (a b : Q) :
  Float.eqb x (Fin a) = true -> Float.eqb y (Fin b) = true ->
  Float.eqb (Float.add x y) (Fin (a + b)) = true.
Proof.
  intros Hx Hy.
  apply eqb_Fin_inv in Hx. destruct Hx as [a' [-> Ha]].
  apply eqb_Fin_inv in Hy. destruct Hy as [b' [-> Hb]].
  apply eqb_Fin_intro. rewrite Qred_correct, Ha, Hb. reflexivity.
Qed.

Lemma fold_add_constant (c : Q) (l : list float) :
  Forall (fun x => Float.eqb x (Fin c) = true) l ->
  forall acc a,
    Float.eqb acc (Fin a) = true ->
    Float.eqb (fold_left Float.add l acc)
              (Fin (a + inject_Z (Z.of_nat (List.length l)) * c)) = true.
Proof.
  induction 1 as [| x t Hx Ht IH]; intros acc a Hacc; simpl fold_left.
  - apply eqb_Fin_inv in Hacc. destruct Hacc as [a' [-> Ha]].
    apply eqb_Fin_intro. rewrite Ha. simpl. ring.
  - specialize (IH (Float.add acc x) (a + c)%Q (add_eqb _ _ _ _ Hacc Hx)).
    apply eqb_Fin_inv in IH. destruct IH as [s [-> Hs]].
    apply eqb_Fin_intro. rewrite Hs.
    change (List.length (x :: t)) with (S (List.length t)).
    rewrite Nat2Z.inj_succ. unfold Z.succ. rewrite inject_Z_plus. ring.
Qed.

Lemma mean_constant (c : Q) (l : list float) :
  l <> [] ->
  Forall (fun x => Float.eqb x (Fin c) = true) l ->
  Float.eqb (Numpy.mean l) (Fin c) = true.
Proof.
  intros Hne Hl. unfold Numpy.mean.
  pose proof (fold_add_constant c l Hl Float.zero 0%Q eq_refl) as Hs.
  apply eqb_Fin_inv in Hs. destruct Hs as [s [-> Hs]].
  assert (Hn : ~ (inject_Z (Z.of_nat (List.length l)) == 0)%Q).
  { unfold Qeq. simpl. destruct l; [contradiction | simpl; lia]. }
  unfold Float.div, Float.of_nat, Float.of_Z, Qis_zero.
  destruct (Qeq_bool (inject_Z (Z.of_nat (List.length l))) 0) eqn:E.
  - apply Qeq_bool_eq in E. contradiction.
  - apply eqb_Fin_intro. rewrite Qred_correct, Hs. now field.
Qed.

Lemma squared_deviation_zero (c : Q) (v m : float) :
  Float.eqb v (Fin c) = true -> Float.eqb m (Fin c) = true ->
  Float.eqb (Float.mul (Float.sub v m) (Float.sub v m)) (Fin 0) = true.
Proof.
  intros Hv Hm.
  apply eqb_Fin_inv in Hv. destruct Hv as [v' [-> Hv]].
  apply eqb_Fin_inv in Hm. destruct Hm as [m' [-> Hm]].
  apply eqb_Fin_intro. unfold Float.fin.
  rewrite !Qred_correct, Hv, Hm. ring.
Qed.

Lemma variance_constant (c : Q) (l : list float) :
  l <> [] ->
  Forall (fun x => Float.eqb x (Fin c) = true) l ->
  Float.eqb (Standardizer.variance l) Float.zero = true.
Proof.
  intros Hne Hl. unfold Standardizer.variance.
  apply (mean_constant 0).
  - destruct l; [contradiction | discriminate].
  - apply Forall_forall. intros d Hd. apply in_map_iff in Hd.
    destruct Hd as [v [<- Hv]].
    apply (squared_deviation_zero c); [| now apply mean_constant].
    rewrite Forall_forall in Hl. now apply Hl.
Qed.

Lemma nth_Fin_in_range (row : list float) (j : nat) (c : Q) :
  nth j row NaN = Fin c -> (j < List.length row)%nat.
Proof.
  intros H. destruct (Nat.lt_ge_cases j (List.length row)) as [Hlt | Hge];
    [exact Hlt |].
  rewrite nth_overflow in H by exact Hge. discriminate.
Qed.

Lemma nth_map_seq {B : Type} (g : nat -> B) (n j : nat) (d : B) :
  (j < n)%nat -> nth j (map g (seq 0 n)) d = g j.
Proof.
  intros Hj. rewrite (nth_indep _ d (g 0%nat))
    by (rewrite length_map, length_seq; exact Hj).
  rewrite map_nth, seq_nth by exact Hj. reflexivity.
Qed.

(** C7.  If every row of the matrix holds the same finite value in column
    [j], then every row of the standardized matrix holds 0 in column [j]. *)
Theorem constant_column_is_scaled_to_zero
  (sqrt : float -> float) (X : list (list float)) (j : nat) (c : Q) :
  (forall row, In row X -> nth j row NaN = Fin c) ->
  forall row, In row (Standardizer.fitTransform sqrt X) ->
              nth j row NaN = Float.zero.
Proof.
  intros Hconst row' Hin.
  unfold Standardizer.fitTransform, Standardizer.transform in Hin.
  apply in_map_iff in Hin. destruct Hin as [row [<- Hrow]].
  pose proof (nth_Fin_in_range row j c (Hconst row Hrow)) as Hj.
  rewrite nth_map_seq by exact Hj.
  assert (Hvar : Float.eqb (nth j (Standardizer.var_ (Standardizer.fit X)) NaN)
                           Float.zero = true).
  { destruct X as [| r0 rest]; [destruct Hrow |].
    pose proof (nth_Fin_in_range r0 j c (Hconst r0 (or_introl eq_refl))) as Hj0.
    unfold Standardizer.fit. cbn [Standardizer.var_ hd].
    rewrite nth_map_seq by exact Hj0.
    apply (variance_constant c).
    - discriminate.
    - apply Forall_forall. intros v Hv. unfold Standardizer.column in Hv.
      apply in_map_iff in Hv. destruct Hv as [r [<- Hr]].
      rewrite (Hconst r Hr). apply eqb_Fin_intro. reflexivity. }
  unfold Standardizer.scale_value. now rewrite Hvar.
Qed.

(** C7, witness: the third column of the example matrix is 7 in every
    row. *)
Lemma constant_column_is_scaled_to_zero_witness :
  (forall row, In row Examples.constant_column -> nth 2 row NaN = Fin 7) /\
  forall (sqrt : float -> float) row,
    In row (Standardizer.fitTransform sqrt Examples.constant_column) ->
    nth 2 row NaN = Float.zero.
Proof.
  assert (H : forall row, In row Examples.constant_column ->
                          nth 2 row NaN = Fin 7).
  { intros row [<- | [<- | [<- | []]]]; reflexivity. }
  split; [exact H |]. intros sqrt.
  exact (constant_column_is_scaled_to_zero sqrt Examples.constant_column 2 7 H).
Defined.

(** ** The amount parser *)

(** A text that holds a word holds the first letter of the word. *)
Lemma contains_first_letter (c : ascii) (w s : string) :
  PyStr.contains (String c w) s = true ->
  PyStr.contains (String c EmptyString) s = true.
Proof.
  induction s as [| x t IH]; intros H.
  - discriminate.
  - cbn [PyStr.contains] in *.
    destruct (String.prefix (String c w) (String x t)) eqn:Hp.
    + cbn [String.prefix] in Hp. cbn [String.prefix].
      destruct (Ascii.ascii_dec c x) as [-> | Hne].
      * destruct (Ascii.ascii_dec x x); [| contradiction].
        now destruct t.
      * destruct (Ascii.ascii_dec c x); [contradiction | discriminate].
    + destruct (String.prefix (String c EmptyString) (String x t));
        [reflexivity | now apply IH].
Qed.

Lemma letter_or_word (c : ascii) (w s : string) :
  PyStr.contains (String c EmptyString) s || PyStr.contains (String c w) s
  = PyStr.contains (String c EmptyString) s.
Proof.
  destruct (PyStr.contains (String c EmptyString) s) eqn:E; [reflexivity |].
  destruct (PyStr.contains (String c w) s) eqn:F; [| reflexivity].
  apply contains_first_letter in F. congruence.
Qed.

(** The multiplier of a text, by the first branch that applies.  The words
    [BILLION], [MILLION], [CRORE] and [LAKH] add nothing to the tests for
    their first letters. *)
Lemma scaled_text_multiplier (amount_str : string) :
  let t := DataLoader.without_symbols amount_str in
  fst (DataLoader.scaled_text amount_str)
  = if PyStr.contains "B" t then 1000000000
    else if PyStr.contains "M" t then 1000000
    else if PyStr.contains "K" t || PyStr.contains "THOUSAND" t then 1000
    else if PyStr.contains "CR" t then 10000000
    else if PyStr.contains "L" t then 100000
    else 1.
Proof.
  intros t. unfold DataLoader.scaled_text. fold (DataLoader.without_symbols amount_str).
  fold t.
  rewrite (letter_or_word "B" "ILLION" t), (letter_or_word "M" "ILLION" t),
          (letter_or_word "L" "AKH" t).
  assert (Hcr : PyStr.contains "CR" t || PyStr.contains "CRORE" t
                = PyStr.contains "CR" t).
  { destruct (PyStr.contains "CR" t) eqn:E; [reflexivity |].
    destruct (PyStr.contains "CRORE" t) eqn:F; [| reflexivity].
    exfalso. clear - E F. induction t as [| x u IH]; [discriminate |].
    cbn [PyStr.contains] in E, F.
    destruct (String.prefix "CR" (String x u)) eqn:P; [discriminate |].
    destruct (String.prefix "CRORE" (String x u)) eqn:Q.
    - cbn [String.prefix] in P, Q.
      destruct (Ascii.ascii_dec "C" x); [| discriminate].
      destruct u as [| y v]; [discriminate |].
      cbn [String.prefix] in P, Q.
      destruct (Ascii.ascii_dec "R" y); [| discriminate].
      now destruct v.
    - now apply IH. }
  rewrite Hcr.
  destruct (PyStr.contains "B" t); [reflexivity |].
  destruct (PyStr.contains "M" t); [reflexivity |].
  destruct (PyStr.contains "K" t || PyStr.contains "THOUSAND" t); [reflexivity |].
  destruct (PyStr.contains "CR" t); [reflexivity |].
  destruct (PyStr.contains "L" t); reflexivity.
Qed.

(** C10, amended.  [_clean_amount] raises on exactly one kind of input: a
    Python [int] whose magnitude is beyond the range of a float makes
    [float(amount)], which is outside the [try], raise [OverflowError].
    On every other input it returns a number: 0 for a missing value, the
    nearest float for an [int], the float itself for a [float], and for a
    string the parsed number times the multiplier of the first of [B]
    (10^9), [M] (10^6), [K] or [THOUSAND] (10^3), [CR] (10^7) and [L] (10^5)
    found in the upper-cased text without currency symbols, or 0 when what
    is left after removing the suffix does not parse as a float. *)
Theorem clean_amount_returns_except_on_huge_int
  (float_of_str : string -> result float) (amount : cell) :
  (forall n, amount = CInt n -> Float.huge <= Z.abs n ->
     DataLoader._clean_amount float_of_str amount = Raised OverflowError) /\
  ((forall n, amount = CInt n -> Z.abs n < Float.huge) ->
   exists v,
     DataLoader._clean_amount float_of_str amount = Returned v /\
     (isna amount = true -> v = Float.zero) /\
     (forall n, amount = CInt n -> v = Float.of_int n) /\
     (forall x, amount = CFloat x -> isnan x = false -> v = x) /\
     (forall s, amount = CStr s ->
        let t := DataLoader.without_symbols (PyStr.upper (PyStr.strip s)) in
        let p := DataLoader.scaled_text (PyStr.upper (PyStr.strip s)) in
        fst p = (if PyStr.contains "B" t then 1000000000
                 else if PyStr.contains "M" t then 1000000
                 else if PyStr.contains "K" t || PyStr.contains "THOUSAND" t
                      then 1000
                 else if PyStr.contains "CR" t then 10000000
                 else if PyStr.contains "L" t then 100000
                 else 1) /\
        (forall e, float_of_str (PyStr.strip (snd p)) = Raised e ->
                   v = Float.zero) /\
        (forall x, float_of_str (PyStr.strip (snd p)) = Returned x ->
                   v = Float.times x (Float.of_Z (fst p))))).
Proof.
  split.
  - intros n -> Hn. unfold DataLoader._clean_amount, Float.float_of_int.
    cbn [isna]. apply Z.leb_le in Hn. now rewrite Hn.
  - intros Hrange. destruct amount as [| n | x | s].
    + exists Float.zero. split; [reflexivity |].
      split; [reflexivity |]. repeat split; intros; discriminate.
    + exists (Float.of_int n).
      assert (Hn : (Float.huge <=? Z.abs n) = false).
      { apply Z.leb_gt. now apply Hrange. }
      unfold DataLoader._clean_amount, Float.float_of_int. cbn [isna].
      rewrite Hn. split; [reflexivity |].
      split; [discriminate |].
      split; [intros n' H; now injection H as <- |].
      split; intros; discriminate.
    + destruct (isnan x) eqn:Hx.
      * exists Float.zero. unfold DataLoader._clean_amount. cbn [isna].
        rewrite Hx. split; [reflexivity |]. split; [reflexivity |].
        split; [intros; discriminate |].
        split; [intros x' H Hx'; injection H as <-; congruence |].
        intros; discriminate.
      * exists x. unfold DataLoader._clean_amount. cbn [isna]. rewrite Hx.
        split; [reflexivity |]. split; [discriminate |].
        split; [intros; discriminate |].
        split; [intros x' H _; now injection H as <- |].
        intros; discriminate.
    + eexists. split; [reflexivity |].
      split; [discriminate |]. split; [intros; discriminate |].
      split; [intros; discriminate |].
      intros s' H. injection H as <-. intros t p.
      split; [apply scaled_text_multiplier |].
      unfold DataLoader.parse_scaled. fold p.
      split.
      * intros e He. now rewrite He.
      * intros x Hx. now rewrite Hx.
Qed.

(** C10, counterexample: the [int] 10^400 is not missing and is beyond the
    range of a float; [_clean_amount] raises [OverflowError] on it. *)
Lemma clean_amount_huge_int_counterexample :
  isna (CInt (10 ^ 400)) = false /\
  forall float_of_str : string -> result float,
    DataLoader._clean_amount float_of_str (CInt (10 ^ 400))
    = Raised OverflowError /\
    forall v, DataLoader._clean_amount float_of_str (CInt (10 ^ 400))
              <> Returned v.
Proof.
  split; [reflexivity |]. intros float_of_str.
  assert (H : DataLoader._clean_amount float_of_str (CInt (10 ^ 400))
              = Raised OverflowError) by (vm_compute; reflexivity).
  split; [exact H |]. intros v. rewrite H. discriminate.
Qed.

(** The parser on some amounts, with the decimal reader as [float(str)]:
    the suffix letters work, the words [billion], [million], [crore] and
    [lakh] leave letters behind and give 0. *)
Example clean_amount_examples :
  let clean := DataLoader._clean_amount Decimal.float_of_str in
  clean (CStr "$1.5M") = Returned (Fin 1500000) /\
  clean (CStr " 2,500 ") = Returned (Fin 2500) /\
  clean (CStr "5 Cr") = Returned (Fin 50000000) /\
  clean (CStr "₹3L") = Returned (Fin 300000) /\
  clean (CStr "5 thousand") = Returned (Fin 5000) /\
  clean (CStr "1 billion") = Returned (Fin 0) /\
  clean (CStr "2 lakh") = Returned (Fin 0) /\
  clean (CStr "undisclosed") = Returned (Fin 0) /\
  clean (CStr "") = Returned (Fin 0) /\
  clean (CStr "inf") = Returned PInf /\
  clean CNone = Returned (Fin 0) /\
  clean (CFloat NaN) = Returned (Fin 0) /\
  clean (CInt 7) = Returned (Fin 7).
Proof. repeat split. Qed.

(* ------------------------------------------------------------------ *)
(** * Further properties of the code *)

(** ** Order and grouping of the feature table *)

Section InsertionSortOrder.

Context {A : Type} (leb : A -> A -> bool).
Hypothesis leb_total : forall a b, leb a b = true \/ leb b a = true.

Lemma insert_locally_sorted (x : A) (l : list A) :
  LocallySorted (fun a b => leb a b = true) l ->
  LocallySorted (fun a b => leb a b = true) (insert leb x l).
Proof.
  induction 1 as [| y | y z t Hs IH Hyz]; simpl.
  - constructor.
  - destruct (leb x y) eqn:E.
    + constructor; [constructor | exact E].
    + constructor; [constructor |].
      destruct (leb_total x y) as [H | H]; [congruence | exact H].
  - destruct (leb x y) eqn:E.
    + constructor; [constructor; assumption | exact E].
    + simpl in IH. destruct (leb x z) eqn:E'.
      * constructor; [exact IH |].
        destruct (leb_total x y) as [H | H]; [congruence | exact H].
      * constructor; [exact IH | exact Hyz].
Qed.

Lemma sorted_locally_sorted (l : list A) :
  LocallySorted (fun a b => leb a b = true) (sorted leb l).
Proof.
  induction l as [| x t IH]; simpl; [constructor |].
  now apply insert_locally_sorted.
Qed.

End InsertionSortOrder.

Lemma leb_distinct_ltb (a b : string) :
  String.leb a b = true -> a <> b -> String.ltb a b = true.
Proof.
  unfold String.leb, String.ltb. intros H Hne.
  destruct (String.compare a b) eqn:E; try reflexivity; try discriminate.
  apply String.compare_eq_iff in E. contradiction.
Qed.

Lemma locally_sorted_strict (l : list string) :
  NoDup l ->
  LocallySorted (fun a b => String.leb a b = true) l ->
  LocallySorted (fun a b => String.ltb a b = true) l.
Proof.
  intros Hnd Hs. induction Hs as [| y | y z t Hs IH Hyz].
  - constructor.
  - constructor.
  - inversion Hnd as [| ? ? Hnotin Hnd']; subst.
    constructor; [now apply IH |].
    apply leb_distinct_ltb; [exact Hyz |].
    intros ->. apply Hnotin. now left.
Qed.

Lemma feature_names_NoDup (log10 : float -> float) (df : list DF.row) :
  NoDup (map startup_name (startup_features log10 df)).
Proof.
  rewrite startup_features_names.
  exact (Permutation_NoDup (sorted_perm String.leb _) (unique_NoDup _)).
Qed.

Lemma feature_names_In (log10 : float -> float) (df : list DF.row) (name : string) :
  In name (map startup_name (startup_features log10 df))
  <-> In name (map DF.startup_name df).
Proof.
  rewrite startup_features_names.
  pose proof (sorted_perm String.leb (Pandas.unique (map DF.startup_name df))) as P.
  split; intros H.
  - apply unique_In. exact (Permutation_in _ (Permutation_sym P) H).
  - apply unique_In in H. exact (Permutation_in _ P H).
Qed.

(** X1.  The rows of the feature table are in strictly ascending order of
    startup name, whatever the order of the records. *)
Theorem feature_rows_sorted_by_name (log10 : float -> float) (df : list DF.row) :
  LocallySorted (fun a b => String.ltb a b = true)
                (map startup_name (startup_features log10 df)).
Proof.
  apply locally_sorted_strict.
  - apply feature_names_NoDup.
  - rewrite startup_features_names.
    apply sorted_locally_sorted. exact String.leb_total.
Qed.

(** A feature row is the row of the group of its own name. *)
Lemma feature_row_of_group (log10 : float -> float) (df : list DF.row)
  (e : StartupFeatures) :
  In e (startup_features log10 df) ->
  e = features_of_group log10 (startup_name e, records_of (startup_name e) df) /\
  records_of (startup_name e) df <> [].
Proof.
  intros Hin.
  destruct (startup_features_inv log10 df e Hin) as [k [r [rows [-> Hrows]]]].
  cbn [features_of_group startup_name]. unfold records_of.
  rewrite <- Hrows. split; [reflexivity | discriminate].
Qed.

Lemma filter_head_split {A : Type} (f : A -> bool) (l : list A) (r : A) (rows : list A) :
  filter f l = r :: rows ->
  exists before after,
    l = before ++ r :: after /\
    f r = true /\
    (forall x, In x before -> f x = false).
Proof.
  induction l as [| x t IH]; simpl; [discriminate |].
  destruct (f x) eqn:E; intros H.
  - injection H as -> _. exists [], t. repeat split; [exact E | intros ? []].
  - destruct (IH H) as [before [after [-> [Hr Hb]]]].
    exists (x :: before), after. repeat split; [exact Hr |].
    intros y [<- | Hy]; [exact E | now apply Hb].
Qed.

(** X2.  The industry and the city of a feature row are those of the first
    record, in table order, that carries the startup's name. *)
Theorem first_record_gives_industry_and_city
  (log10 : float -> float) (df : list DF.row) (e : StartupFeatures) :
  In e (startup_features log10 df) ->
  exists before r after,
    df = before ++ r :: after /\
    DF.startup_name r = startup_name e /\
    (forall x, In x before -> DF.startup_name x <> startup_name e) /\
    industry_first e = DF.industry r /\
    city_first e = DF.city r.
Proof.
  intros Hin.
  destruct (startup_features_inv log10 df e Hin) as [k [r [rows [-> Hrows]]]].
  symmetry in Hrows.
  destruct (filter_head_split _ df r rows Hrows) as [before [after [Hdf [Hr Hb]]]].
  exists before, r, after. cbn [features_of_group startup_name industry_first city_first].
  split; [exact Hdf |].
  split; [now apply String.eqb_eq |].
  split; [| split; reflexivity].
  intros x Hx Heq. specialize (Hb x Hx). apply String.eqb_neq in Hb. contradiction.
Qed.

(** X2, witness: the first record of the example table is Zeta's, of the
    industry Fintech in Mumbai. *)
Lemma first_record_gives_industry_and_city_witness :
  option_map DF.startup_name (hd_error Examples.funding_table)
  = Some "Zeta"%string /\
  forall log10 : float -> float,
    let e := nth 2 (startup_features log10 Examples.funding_table)
                 Examples.nan_features in
    In e (startup_features log10 Examples.funding_table) /\
    exists before r after,
      Examples.funding_table = before ++ r :: after /\
      DF.startup_name r = startup_name e /\
      (forall x, In x before -> DF.startup_name x <> startup_name e) /\
      industry_first e = DF.industry r /\
      city_first e = DF.city r.
Proof.
  split; [reflexivity |]. intros log10 e.
  assert (Hin : In e (startup_features log10 Examples.funding_table)).
  { right. right. left. reflexivity. }
  split; [exact Hin |].
  exact (first_record_gives_industry_and_city
           log10 Examples.funding_table e Hin).
Defined.

(** ** Years, counts and amounts of a feature row *)

Lemma fold_min_In (t : list Z) : forall a, In (fold_left Z.min t a) (a :: t).
Proof.
  induction t as [| y t IH]; intros a; simpl; [now left |].
  destruct (IH (Z.min a y)) as [H | H].
  - rewrite <- H. destruct (Z.min_spec a y) as [[_ ->] | [_ ->]]; auto.
  - right. now right.
Qed.

Lemma fold_max_In (t : list Z) : forall a, In (fold_left Z.max t a) (a :: t).
Proof.
  induction t as [| y t IH]; intros a; simpl; [now left |].
  destruct (IH (Z.max a y)) as [H | H].
  - rewrite <- H. destruct (Z.max_spec a y) as [[_ ->] | [_ ->]]; auto.
  - right. now right.
Qed.

Lemma fold_min_lower (t : list Z) : forall a x, In x (a :: t) -> fold_left Z.min t a <= x.
Proof.
  induction t as [| y t IH]; intros a x Hx; simpl.
  - destruct Hx as [<- | []]. lia.
  - destruct Hx as [<- | [<- | Hx]].
    + pose proof (fold_min_le t (Z.min a y)). lia.
    + pose proof (fold_min_le t (Z.min a y)). lia.
    + apply IH. now right.
Qed.

Lemma fold_max_upper (t : list Z) : forall a x, In x (a :: t) -> x <= fold_left Z.max t a.
Proof.
  induction t as [| y t IH]; intros a x Hx; simpl.
  - destruct Hx as [<- | []]. lia.
  - destruct Hx as [<- | [<- | Hx]].
    + pose proof (fold_max_ge t (Z.max a y)). lia.
    + pose proof (fold_max_ge t (Z.max a y)). lia.
    + apply IH. now right.
Qed.

(** X3.  Every record of a startup falls between the [year_min] and the
    [year_max] of its feature row, and both years are the year of one of
    its records. *)
Theorem records_within_year_span
  (log10 : float -> float) (df : list DF.row) (e : StartupFeatures) :
  In e (startup_features log10 df) ->
  (forall r, In r df -> DF.startup_name r = startup_name e ->
             year_min e <= DF.year r <= year_max e) /\
  (exists r, In r df /\ DF.startup_name r = startup_name e /\
             DF.year r = year_min e) /\
  (exists r, In r df /\ DF.startup_name r = startup_name e /\
             DF.year r = year_max e).
Proof.
  intros Hin.
  destruct (startup_features_inv log10 df e Hin) as [k [r0 [rows [-> Hrows]]]].
  cbn [features_of_group startup_name year_min year_max].
  assert (Hmem : forall r, In r (r0 :: rows) <->
                           In r df /\ DF.startup_name r = k).
  { intros r. rewrite Hrows, filter_In. now rewrite String.eqb_eq. }
  split; [| split].
  - intros r Hr Hname.
    assert (Hy : In (DF.year r) (map DF.year (r0 :: rows))).
    { apply in_map. now apply Hmem. }
    split.
    + exact (fold_min_lower _ _ _ Hy).
    + exact (fold_max_upper _ _ _ Hy).
  - pose proof (fold_min_In (map DF.year rows) (DF.year r0)) as H.
    change (DF.year r0 :: map DF.year rows) with (map DF.year (r0 :: rows)) in H.
    apply in_map_iff in H. destruct H as [r [Hyr Hr]].
    exists r. apply Hmem in Hr. destruct Hr as [Hr Hn].
    repeat split; assumption.
  - pose proof (fold_max_In (map DF.year rows) (DF.year r0)) as H.
    change (DF.year r0 :: map DF.year rows) with (map DF.year (r0 :: rows)) in H.
    apply in_map_iff in H. destruct H as [r [Hyr Hr]].
    exists r. apply Hmem in Hr. destruct Hr as [Hr Hn].
    repeat split; assumption.
Qed.

(** X3, witness: Zeta's records of 2020 and 2017 span 2017 to 2020. *)
Lemma records_within_year_span_witness :
  map DF.year (records_of "Zeta" Examples.funding_table) = [2020; 2017] /\
  forall log10 : float -> float,
    let e := nth 2 (startup_features log10 Examples.funding_table)
                 Examples.nan_features in
    In e (startup_features log10 Examples.funding_table) /\
    year_min e = 2017 /\ year_max e = 2020 /\
    forall r, In r Examples.funding_table ->
              DF.startup_name r = startup_name e ->
              year_min e <= DF.year r <= year_max e.
Proof.
  split; [reflexivity |]. intros log10 e.
  assert (Hin : In e (startup_features log10 Examples.funding_table)).
  { right. right. left. reflexivity. }
  split; [exact Hin |]. split; [reflexivity |]. split; [reflexivity |].
  exact (proj1 (records_within_year_span
                  log10 Examples.funding_table e Hin)).
Defined.

(** [count] counts the records that have an amount. *)
Lemma count_has_amount (rows : list DF.row) :
  Pandas.count (map DF.funding_amount_usd rows)
  = List.length (filter has_amount rows).
Proof.
  unfold Pandas.count, Pandas.dropna.
  induction rows as [| r t IH]; [reflexivity |].
  cbn [map filter]. unfold has_amount at 1.
  destruct (isnan (DF.funding_amount_usd r)); cbn [negb List.length];
    now rewrite IH.
Qed.

Lemma filter_length_le {A : Type} (f : A -> bool) (l : list A) :
  (List.length (filter f l) <= List.length l)%nat.
Proof.
  induction l as [| x t IH]; [apply Nat.le_refl |].
  cbn [filter]. destruct (f x); cbn [List.length]; lia.
Qed.

Lemma filter_all {A : Type} (f : A -> bool) (l : list A) :
  (forall x, In x l -> f x = true) -> filter f l = l.
Proof.
  induction l as [| x t IH]; intros H; [reflexivity |].
  cbn [filter]. rewrite (H x) by now left.
  f_equal. apply IH. intros y Hy. apply H. now right.
Qed.

(** X4.  [num_funding_rounds] is the number of records of the startup that
    have an amount: at most the number of its records, which is at least 1,
    and equal to it when no amount is missing.  A startup none of whose
    records has an amount gets 0 rounds, a [total_funding] of 0 and a NaN
    average. *)
Theorem rounds_count_records_with_an_amount
  (log10 : float -> float) (df : list DF.row) (e : StartupFeatures) :
  In e (startup_features log10 df) ->
  let rows := records_of (startup_name e) df in
  (1 <= List.length rows)%nat /\
  num_funding_rounds e = List.length (filter has_amount rows) /\
  (num_funding_rounds e <= List.length rows)%nat /\
  ((forall r, In r rows -> has_amount r = true) ->
   num_funding_rounds e = List.length rows) /\
  (num_funding_rounds e = 0%nat ->
   total_funding e = Float.zero /\ isnan (avg_funding_per_round e) = true).
Proof.
  intros Hin rows.
  destruct (feature_row_of_group log10 df e Hin) as [He Hne].
  fold rows in He, Hne.
  assert (Hcount : num_funding_rounds e
                   = Pandas.count (map DF.funding_amount_usd rows)).
  { rewrite He at 1. reflexivity. }
  assert (Hnum : num_funding_rounds e = List.length (filter has_amount rows)).
  { rewrite Hcount. apply count_has_amount. }
  split; [destruct rows; [contradiction | simpl; lia] |].
  split; [exact Hnum |].
  split; [rewrite Hnum; apply filter_length_le |].
  split; [intros Hall; rewrite Hnum; now rewrite (filter_all _ _ Hall) |].
  intros Hzero. rewrite Hcount in Hzero. unfold Pandas.count in Hzero.
  apply length_zero_iff_nil in Hzero.
  assert (Hsum : Pandas.sum (map DF.funding_amount_usd rows) = Float.zero).
  { unfold Pandas.sum. now rewrite Hzero. }
  assert (Hmean : Pandas.mean (map DF.funding_amount_usd rows) = NaN).
  { unfold Pandas.mean, Pandas.count. rewrite Hsum, Hzero. reflexivity. }
  rewrite He. cbn [features_of_group total_funding avg_funding_per_round].
  rewrite Hsum, Hmean. split; reflexivity.
Qed.

(** X4, witness: in the table with missing amounts Acme has two records
    and no amount, Zeta two records and one amount. *)
Lemma rounds_count_records_with_an_amount_witness :
  List.length (filter has_amount Examples.missing_amounts) = 1%nat /\
  forall log10 : float -> float,
    let acme := nth 0 (startup_features log10 Examples.missing_amounts)
                    Examples.nan_features in
    let zeta := nth 1 (startup_features log10 Examples.missing_amounts)
                    Examples.nan_features in
    In acme (startup_features log10 Examples.missing_amounts) /\
    num_funding_rounds acme = 0%nat /\
    total_funding acme = Float.zero /\
    isnan (avg_funding_per_round acme) = true /\
    num_funding_rounds zeta = 1%nat /\
    total_funding zeta = Fin 500000.
Proof.
  split; [reflexivity |]. intros log10 acme zeta.
  assert (Hin : In acme (startup_features log10 Examples.missing_amounts)).
  { left. reflexivity. }
  pose proof (rounds_count_records_with_an_amount
                log10 Examples.missing_amounts acme Hin) as H.
  cbv zeta in H. destruct H as [_ [_ [_ [_ H]]]].
  destruct (H eq_refl) as [Ht Ha].
  split; [exact Hin |]. split; [reflexivity |]. split; [exact Ht |].
  split; [exact Ha |]. split; reflexivity.
Defined.

Lemma leb_Fin_intro (a b : Q) : (a <= b)%Q -> Float.leb (Fin a) (Fin b) = true.
Proof. intros H. now apply Qle_bool_iff. Qed.

Lemma leb_zero_Fin (q : Q) : Float.leb Float.zero (Fin q) = true -> (0 <= q)%Q.
Proof. intros H. now apply Qle_bool_iff. Qed.

Lemma in_range_nonneg (x : float) :
  Float.leb Float.zero x = true -> Float.leb Float.zero (Float.in_range x) = true.
Proof.
  destruct x as [q | | |]; intros H; try exact H.
  unfold Float.in_range. destruct (Float.overflows q); [| exact H].
  apply leb_zero_Fin in H. apply Qle_bool_iff in H.
  unfold Qis_neg. now rewrite H.
Qed.

Lemma plus_nonneg (a x : float) :
  Float.leb Float.zero a = true -> Float.leb Float.zero x = true ->
  Float.leb Float.zero (Float.plus a x) = true.
Proof.
  intros Ha Hx. unfold Float.plus. apply in_range_nonneg.
  destruct a as [p | | |], x as [q | | |]; try discriminate; try reflexivity.
  apply leb_zero_Fin in Ha. apply leb_zero_Fin in Hx.
  unfold Float.add, Float.fin. change Float.zero with (Fin 0).
  apply leb_Fin_intro. rewrite Qred_correct.
  change 0%Q with (0 + 0)%Q. now apply Qplus_le_compat.
Qed.

Lemma fold_plus_nonneg (l : list float) :
  forall acc,
    Float.leb Float.zero acc = true ->
    Forall (fun x => Float.leb Float.zero x = true) l ->
    Float.leb Float.zero (fold_left Float.plus l acc) = true.
Proof.
  induction l as [| x t IH]; intros acc Hacc Hl; [exact Hacc |].
  inversion Hl as [| ? ? Hx Ht]; subst. cbn [fold_left].
  apply IH; [now apply plus_nonneg | exact Ht].
Qed.

(** A non-negative amount is an amount: the comparison with NaN is false. *)
Lemma dropna_nonneg (xs : list float) :
  Forall (fun x => Float.leb Float.zero x = true) xs -> Pandas.dropna xs = xs.
Proof.
  intros H. unfold Pandas.dropna. apply filter_all.
  intros x Hx. rewrite Forall_forall in H. specialize (H x Hx).
  now destruct x.
Qed.

Lemma sum_nonneg (xs : list float) :
  Forall (fun x => Float.leb Float.zero x = true) xs ->
  Float.leb Float.zero (Pandas.sum xs) = true.
Proof.
  intros H. unfold Pandas.sum. rewrite (dropna_nonneg xs H).
  now apply fold_plus_nonneg.
Qed.

(** A non-negative float divided by an integer that is at least 1 stays
    non-negative and does not grow. *)
Lemma div_nonneg_by_positive (x : float) (n : Z) :
  1 <= n ->
  Float.leb Float.zero x = true ->
  Float.leb Float.zero (Float.div x (Fin (inject_Z n))) = true /\
  Float.leb (Float.div x (Fin (inject_Z n))) x = true.
Proof.
  intros Hn Hx.
  assert (Hz : Qis_zero (inject_Z n) = false).
  { unfold Qis_zero. destruct (Qeq_bool (inject_Z n) 0) eqn:E; [| reflexivity].
    apply Qeq_bool_eq in E. unfold Qeq in E. simpl in E. lia. }
  assert (Hneg : Qis_neg (inject_Z n) = false).
  { unfold Qis_neg. apply negb_false_iff. apply Qle_bool_iff.
    unfold Qle. simpl. lia. }
  assert (H0 : (0 < inject_Z n)%Q) by (unfold Qlt; simpl; lia).
  assert (H1 : (1 <= inject_Z n)%Q) by (unfold Qle; simpl; lia).
  destruct x as [t | | |]; try discriminate.
  - apply leb_zero_Fin in Hx.
    unfold Float.div. rewrite Hz. unfold Float.fin.
    change Float.zero with (Fin 0). split.
    + apply leb_Fin_intro. rewrite Qred_correct.
      apply Qle_shift_div_l; [exact H0 |]. now rewrite Qmult_0_l.
    + apply leb_Fin_intro. rewrite Qred_correct.
      apply Qle_shift_div_r; [exact H0 |].
      apply Qle_trans with (1 * t)%Q; [rewrite Qmult_1_l; apply Qle_refl |].
      rewrite (Qmult_comm t). now apply Qmult_le_compat_r.
  - unfold Float.div. rewrite Hneg. split; reflexivity.
Qed.

Lemma div_by_positive_isfinite (x : float) (n : Z) :
  1 <= n -> isfinite (Float.div x (Fin (inject_Z n))) = isfinite x.
Proof.
  intros Hn. destruct x as [t | | |]; try reflexivity.
  - unfold Float.div, Qis_zero.
    destruct (Qeq_bool (inject_Z n) 0) eqn:E; [| reflexivity].
    apply Qeq_bool_eq in E. unfold Qeq in E. simpl in E. lia.
  - unfold Float.div. now destruct (Qis_neg (inject_Z n)).
  - unfold Float.div. now destruct (Qis_neg (inject_Z n)).
Qed.

(** X5.  On a table of non-negative amounts, for a row whose
    [total_funding] is finite (the sum stayed within the range of a float)
    and whose years span less than [2^63 - 1]: [total_funding],
    [avg_funding_per_round] and [funding_per_year] are finite and
    non-negative, and neither the average nor [funding_per_year] exceeds
    [total_funding]. *)
Theorem nonnegative_amounts_give_nonnegative_features
  (log10 : float -> float) (df : list DF.row) (e : StartupFeatures) :
  Forall (fun r => Float.leb Float.zero (DF.funding_amount_usd r) = true) df ->
  In e (startup_features log10 df) ->
  isfinite (total_funding e) = true ->
  year_max e - year_min e < 2 ^ 63 - 1 ->
  Float.leb Float.zero (total_funding e) = true /\
  (isfinite (avg_funding_per_round e) = true /\
   Float.leb Float.zero (avg_funding_per_round e) = true /\
   Float.leb (avg_funding_per_round e) (total_funding e) = true) /\
  (isfinite (funding_per_year e) = true /\
   Float.leb Float.zero (funding_per_year e) = true /\
   Float.leb (funding_per_year e) (total_funding e) = true).
Proof.
  intros Hpos Hin Hfin Hspan.
  destruct (startup_features_inv log10 df e Hin) as [k [r [rows [-> Hrows]]]].
  cbn [features_of_group year_max year_min total_funding
       avg_funding_per_round funding_per_year] in *.
  pose proof (min_le_max (DF.year r) (map DF.year rows)) as Hle.
  change (DF.year r :: map DF.year rows) with (map DF.year (r :: rows)) in Hle.
  rewrite (years_active_small _ _ Hle Hspan).
  assert (Hya : 1 <= Pandas.max (map DF.year (r :: rows))
                     - Pandas.min (map DF.year (r :: rows)) + 1) by lia.
  assert (Hamounts : Forall (fun x => Float.leb Float.zero x = true)
                            (map DF.funding_amount_usd (r :: rows))).
  { apply Forall_forall. intros x Hx. apply in_map_iff in Hx.
    destruct Hx as [r' [<- Hr']]. rewrite Hrows in Hr'.
    apply filter_In in Hr'. rewrite Forall_forall in Hpos. now apply Hpos. }
  pose proof (sum_nonneg _ Hamounts) as Hsum.
  assert (Hcount : Pandas.count (map DF.funding_amount_usd (r :: rows))
                   = S (List.length rows)).
  { unfold Pandas.count. rewrite (dropna_nonneg _ Hamounts).
    cbn [map List.length]. now rewrite length_map. }
  split; [exact Hsum |]. split.
  - unfold Pandas.mean. rewrite Hcount. split.
    + change (Float.of_nat (S (List.length rows)))
        with (Fin (inject_Z (Z.of_nat (S (List.length rows))))).
      rewrite div_by_positive_isfinite by lia. exact Hfin.
    + apply (div_nonneg_by_positive _ (Z.of_nat (S (List.length rows))));
        [lia | exact Hsum].
  - split.
    + now rewrite (div_by_years_isfinite _ _ Hya).
    + apply (div_nonneg_by_positive _ (Float.nearest_int _));
        [now apply nearest_int_positive | exact Hsum].
Qed.

(** X5, witness: Zeta raised 2,000,000 over four years. *)
Lemma nonnegative_amounts_give_nonnegative_features_witness :
  Forall (fun r => Float.leb Float.zero (DF.funding_amount_usd r) = true)
         Examples.funding_table /\
  forall log10 : float -> float,
    let e := nth 2 (startup_features log10 Examples.funding_table)
                 Examples.nan_features in
    In e (startup_features log10 Examples.funding_table) /\
    isfinite (total_funding e) = true /\
    year_max e - year_min e < 2 ^ 63 - 1 /\
    funding_per_year e = Fin 500000 /\
    avg_funding_per_round e = Fin 1000000 /\
    total_funding e = Fin 2000000 /\
    Float.leb (funding_per_year e) (total_funding e) = true.
Proof.
  assert (Hpos : Forall (fun r => Float.leb Float.zero (DF.funding_amount_usd r) = true)
                        Examples.funding_table).
  { repeat constructor. }
  split; [exact Hpos |]. intros log10 e.
  assert (Hin : In e (startup_features log10 Examples.funding_table)).
  { right. right. left. reflexivity. }
  assert (Hfin : isfinite (total_funding e) = true) by reflexivity.
  assert (Hspan : year_max e - year_min e < 2 ^ 63 - 1) by reflexivity.
  split; [exact Hin |]. split; [exact Hfin |]. split; [exact Hspan |].
  do 3 (split; [reflexivity |]).
  exact (proj2 (proj2 (proj2 (proj2
    (nonnegative_amounts_give_nonnegative_features
       log10 Examples.funding_table e Hpos Hin Hfin Hspan))))).
Defined.

(** ** Grouping neither loses nor repeats a record *)

Lemma records_of_cons (k : string) (r : DF.row) (df : list DF.row) :
  records_of k (r :: df)
  = if String.eqb (DF.startup_name r) k then r :: records_of k df
    else records_of k df.
Proof. reflexivity. Qed.

Lemma list_sum_cons (x : nat) (l : list nat) :
  list_sum (x :: l) = (x + list_sum l)%nat.
Proof. reflexivity. Qed.

Lemma indicator_count (n : string) (keys : list string) :
  NoDup keys ->
  list_sum (map (fun k => if String.eqb n k then 1%nat else 0%nat) keys)
  = if in_dec string_dec n keys then 1%nat else 0%nat.
Proof.
  induction 1 as [| k t Hk Hnd IH]; [reflexivity |].
  rewrite map_cons, list_sum_cons. rewrite IH.
  destruct (String.eqb n k) eqn:E.
  - apply String.eqb_eq in E. subst k.
    destruct (in_dec string_dec n t) as [Hin | _]; [contradiction |].
    destruct (in_dec string_dec n (n :: t)) as [_ | Hn]; [reflexivity |].
    exfalso. apply Hn. now left.
  - apply String.eqb_neq in E.
    destruct (in_dec string_dec n t) as [Hin | Hnin];
      destruct (in_dec string_dec n (k :: t)) as [Hin' | Hnin']; try reflexivity.
    + exfalso. apply Hnin'. now right.
    + exfalso. destruct Hin' as [-> | Hin']; contradiction.
Qed.

Lemma group_lengths (keys : list string) (df : list DF.row) :
  NoDup keys ->
  (forall r, In r df -> In (DF.startup_name r) keys) ->
  list_sum (map (fun k => List.length (records_of k df)) keys)
  = List.length df.
Proof.
  intros Hnd. induction df as [| r df IH]; intros Hcover.
  - induction keys as [| k t IHk]; [reflexivity |].
    rewrite map_cons, list_sum_cons. inversion Hnd; subst. now rewrite IHk.
  - assert (Hsplit :
      forall l : list string,
        list_sum (map (fun k => List.length (records_of k (r :: df))) l)
        = (list_sum (map (fun k => if String.eqb (DF.startup_name r) k
                                   then 1%nat else 0%nat) l)
           + list_sum (map (fun k => List.length (records_of k df)) l))%nat).
    { induction l as [| k t IHl]; [reflexivity |].
      rewrite !map_cons, !list_sum_cons, IHl, records_of_cons.
      destruct (String.eqb (DF.startup_name r) k); simpl List.length; lia. }
    rewrite Hsplit, (indicator_count _ keys Hnd), IH.
    + destruct (in_dec string_dec (DF.startup_name r) keys) as [_ | Hn];
        [reflexivity |].
      exfalso. apply Hn, Hcover. now left.
    + intros x Hx. apply Hcover. now right.
Qed.

Lemma filter_filter_comm {A : Type} (f g : A -> bool) (l : list A) :
  filter f (filter g l) = filter g (filter f l).
Proof.
  induction l as [| x t IH]; [reflexivity |].
  cbn [filter]. destruct (f x) eqn:Ef, (g x) eqn:Eg; cbn [filter];
    rewrite ?Ef, ?Eg, IH; reflexivity.
Qed.

(** X6.  The grouping neither loses nor repeats a record: the numbers of
    records behind the feature rows add up to the number of records of the
    table, and the [num_funding_rounds] of the feature rows add up to the
    number of records that have an amount. *)
Theorem grouping_conserves_records
  (log10 : float -> float) (df : list DF.row) :
  list_sum (map (fun e => List.length (records_of (startup_name e) df))
                (startup_features log10 df))
  = List.length df /\
  list_sum (map num_funding_rounds (startup_features log10 df))
  = List.length (filter has_amount df).
Proof.
  set (keys := sorted String.leb (Pandas.unique (map DF.startup_name df))).
  assert (Hnd : NoDup keys).
  { exact (Permutation_NoDup (sorted_perm String.leb _) (unique_NoDup _)). }
  assert (Hcover : forall r, In r df -> In (DF.startup_name r) keys).
  { intros r Hr. apply (Permutation_in _ (sorted_perm String.leb _)).
    apply unique_In. now apply in_map. }
  assert (Hfeats : startup_features log10 df
                   = map (fun k => features_of_group log10 (k, records_of k df)) keys).
  { unfold startup_features, Pandas.groupby. now rewrite map_map. }
  rewrite Hfeats, !map_map. split.
  - rewrite <- (group_lengths keys df Hnd Hcover). reflexivity.
  - rewrite <- (group_lengths keys (filter has_amount df) Hnd).
    + f_equal. apply map_ext. intros k.
      cbn [features_of_group num_funding_rounds].
      rewrite count_has_amount. unfold records_of.
      now rewrite filter_filter_comm.
    + intros r Hr. apply filter_In in Hr. now apply Hcover.
Qed.

(** The five records of the example table in three rows; the four records
    of the table with missing amounts, of which one has an amount. *)
Example grouping_conserves_records_examples :
  forall log10 : float -> float,
    map num_funding_rounds (startup_features log10 Examples.funding_table)
    = [2; 1; 2]%nat /\
    map num_funding_rounds (startup_features log10 Examples.missing_amounts)
    = [0; 1]%nat.
Proof. intros log10. split; reflexivity. Qed.

(** ** The range of the selected cluster count *)

Lemma scan_range (rs : list float) (thr : float) :
  forall i k,
    Elbow.scan i rs thr = Some k ->
    exists j, (j < List.length rs)%nat /\ (0 < i + j)%nat /\ k = (i + j + 2)%nat.
Proof.
  induction rs as [| r t IH]; intros i k H; simpl in H; [discriminate |].
  destruct ((0 <? i)%nat && Float.ltb r thr) eqn:E.
  - injection H as <-. apply andb_prop in E. destruct E as [Hi _].
    apply Nat.ltb_lt in Hi. exists 0%nat. simpl. repeat split; lia.
  - destruct (IH (S i) k H) as [j [Hj [Hp ->]]].
    exists (S j). simpl. repeat split; lia.
Qed.

Lemma select_range (inertias : list float) (self self' : StartupClustering) :
  optimal_k self = None ->
  Elbow.select inertias self = Returned self' ->
  exists n,
    self' = set_optimal_k self n /\
    (n = 4%nat \/ (3 <= n /\ n <= List.length inertias)%nat).
Proof.
  intros Hnone H. unfold Elbow.select in H.
  destruct (Elbow.rates inertias) as [rs | e] eqn:Hr; simpl in H; [| discriminate].
  destruct (rates_nth inertias rs Hr) as [Hlen _].
  destruct (Elbow.scan 0 rs (Elbow.threshold rs)) as [k |] eqn:Hs.
  - simpl in H. injection H as <-.
    destruct (scan_range _ _ _ _ Hs) as [j [Hj [Hp ->]]].
    exists (0 + j + 2)%nat. split; [reflexivity |]. right. lia.
  - rewrite Hnone in H. injection H as <-.
    exists 4%nat. split; [reflexivity | now left].
Qed.

Lemma find_optimal_k_returns
  (fit_transform : list (list float) -> result (list (list float)))
  (KMeans_inertia : nat -> list (list float) -> result float)
  (max_k : nat) (self self' : StartupClustering) (k : option nat) :
  optimal_k self = None ->
  find_optimal_k fit_transform KMeans_inertia max_k self = Returned (k, self') ->
  exists n,
    k = Some n /\
    self' = set_optimal_k self n /\
    (n = 4%nat \/ (3 <= n /\ n < max_k)%nat).
Proof.
  intros Hnone H. unfold find_optimal_k in H.
  destruct (cluster_data self) as [d |]; [| discriminate].
  destruct (fit_transform (scaling_input d)) as [X | e]; simpl in H;
    [| discriminate].
  destruct (mapM (fun k0 => KMeans_inertia k0 X) (range 2 (max_k + 1)))
    as [inertias | e] eqn:Hkm; simpl in H; [| discriminate].
  destruct (Elbow.select inertias self) as [self1 | e] eqn:Hsel; simpl in H;
    [| discriminate].
  injection H as <- <-.
  destruct (select_range inertias self self1 Hnone Hsel) as [n [-> Hn]].
  apply mapM_Returned in Hkm. destruct Hkm as [Hlen _].
  unfold range in Hlen. rewrite length_seq in Hlen.
  exists n. split; [reflexivity |]. split; [reflexivity |].
  destruct Hn as [Hn | Hn]; [now left | right; lia].
Qed.

(** X7.  On an object whose [optimal_k] is not yet set, a call of
    [find_optimal_k] that returns has stored and returned either the
    default 4 or a count from 3 to [max_k - 1]; it never selects 2 and
    never selects [max_k]. *)
Theorem find_optimal_k_range
  (fit_transform : list (list float) -> result (list (list float)))
  (KMeans_inertia : nat -> list (list float) -> result float)
  (max_k : nat) (self self' : StartupClustering) (k : option nat) :
  optimal_k self = None ->
  find_optimal_k fit_transform KMeans_inertia max_k self = Returned (k, self') ->
  exists n,
    k = Some n /\
    self' = set_optimal_k self n /\
    (n = 4%nat \/ (3 <= n /\ n < max_k)%nat).
Proof. exact (find_optimal_k_returns fit_transform KMeans_inertia max_k self self' k). Qed.

(** X7, witness: with [max_k = 5] and the inertias 100, 50, 45, 44 the
    method returns 3. *)
Lemma find_optimal_k_range_witness :
  optimal_k (set_cluster_data (init []) Examples.eight_startups) = None /\
  find_optimal_k ExampleRun.scaler ExampleRun.inertia 5
    (set_cluster_data (init []) Examples.eight_startups)
  = Returned (Some 3%nat,
              set_optimal_k (set_cluster_data (init []) Examples.eight_startups) 3) /\
  exists n,
    Some 3%nat = Some n /\
    set_optimal_k (set_cluster_data (init []) Examples.eight_startups) 3
    = set_optimal_k (set_cluster_data (init []) Examples.eight_startups) n /\
    (n = 4%nat \/ (3 <= n /\ n < 5)%nat).
Proof.
  split; [reflexivity |].
  assert (H : find_optimal_k ExampleRun.scaler ExampleRun.inertia 5
                (set_cluster_data (init []) Examples.eight_startups)
              = Returned (Some 3%nat,
                  set_optimal_k
                    (set_cluster_data (init []) Examples.eight_startups) 3))
    by reflexivity.
  split; [exact H |].
  exact (find_optimal_k_range ExampleRun.scaler ExampleRun.inertia 5
           (set_cluster_data (init []) Examples.eight_startups) _ _
           eq_refl H).
Defined.

(** ** The names given to the rows *)

Lemma name_of_is_label (avg_funding avg_rounds : float) (funding rounds : list float) :
  In (Labels.name_of avg_funding avg_rounds funding rounds) cluster_labels.
Proof.
  unfold Labels.name_of, cluster_labels.
  destruct (Float.gtb avg_funding (quantile funding (75 # 100)));
    destruct (Float.gtb avg_rounds (quantile rounds (75 # 100)));
    destruct (Float.gtb avg_funding (quantile funding (50 # 100)));
    destruct (Float.gtb avg_rounds (quantile rounds (60 # 100)));
    simpl; tauto.
Qed.

Lemma nat_leb_total (a b : nat) : Nat.leb a b = true \/ Nat.leb b a = true.
Proof.
  destruct (Nat.le_ge_cases a b) as [H | H]; [left | right];
    now apply Nat.leb_le.
Qed.

Lemma locally_sorted_strict_nat (l : list nat) :
  NoDup l ->
  LocallySorted (fun a b => Nat.leb a b = true) l ->
  LocallySorted lt l.
Proof.
  intros Hnd Hs. induction Hs as [| y | y z t Hs IH Hyz].
  - constructor.
  - constructor.
  - inversion Hnd as [| ? ? Hnotin Hnd']; subst.
    constructor; [now apply IH |].
    apply Nat.leb_le in Hyz.
    assert (y <> z) by (intros ->; apply Hnotin; now left). lia.
Qed.

(** X8.  When the feature table and the cluster column are present,
    [analyze_clusters] returns; its dictionary has one entry per cluster
    id, in strictly ascending order of the ids; and the [cluster_name]
    column has one entry per row, which is the dictionary's entry for the
    row's cluster and one of the five names. *)
Theorem analyze_clusters_names_every_row
  (self : StartupClustering) (d : list StartupFeatures) (clusters : list nat) :
  cluster_data self = Some d ->
  cluster self = Some clusters ->
  exists col,
    analyze_clusters self
    = Returned (cluster_names d clusters, set_cluster_name self col) /\
    List.length col = List.length clusters /\
    LocallySorted lt (map fst (cluster_names d clusters)) /\
    (forall c, In c (map fst (cluster_names d clusters)) <-> In c clusters) /\
    forall i, (i < List.length clusters)%nat ->
      lookup (nth i clusters 0%nat) (cluster_names d clusters)
      = Some (nth i col EmptyString) /\
      In (nth i col EmptyString) cluster_labels.
Proof.
  intros Hd Hc. unfold analyze_clusters. rewrite Hd, Hc.
  eexists. split; [reflexivity |].
  assert (Hkeys : map fst (cluster_names d clusters) = sorted_unique clusters).
  { unfold cluster_names. rewrite map_map. simpl. apply map_id. }
  split; [now rewrite length_map |].
  split.
  { rewrite Hkeys. unfold sorted_unique. apply locally_sorted_strict_nat.
    - exact (Permutation_NoDup (sorted_perm Nat.leb _) (NoDup_nodup _ _)).
    - apply sorted_locally_sorted. exact nat_leb_total. }
  split.
  { intros c. rewrite Hkeys. apply sorted_unique_In. }
  intros i Hi.
  set (f := fun k =>
              Labels.name_of
                (Pandas.mean (total_funding_col (cluster_df d clusters k)))
                (Pandas.mean (num_funding_rounds_col (cluster_df d clusters k)))
                (total_funding_col d) (num_funding_rounds_col d)).
  assert (Hlook : lookup (nth i clusters 0%nat) (cluster_names d clusters)
                  = Some (f (nth i clusters 0%nat))).
  { unfold cluster_names. apply (lookup_map_key f).
    apply sorted_unique_In. now apply nth_In. }
  rewrite (nth_indep _ EmptyString
             (match lookup 0%nat (cluster_names d clusters) with
              | Some s => s
              | None => EmptyString
              end)) by (now rewrite length_map).
  rewrite (map_nth (fun c => match lookup c (cluster_names d clusters) with
                             | Some s => s
                             | None => EmptyString
                             end)).
  rewrite Hlook. split; [reflexivity |]. apply name_of_is_label.
Qed.

(** X8, witness: the eight example startups in their four clusters. *)
Lemma analyze_clusters_names_every_row_witness :
  cluster_data (set_cluster (set_cluster_data (init []) Examples.eight_startups)
                            Examples.eight_clusters)
  = Some Examples.eight_startups /\
  cluster (set_cluster (set_cluster_data (init []) Examples.eight_startups)
                       Examples.eight_clusters)
  = Some Examples.eight_clusters /\
  exists col,
    analyze_clusters
      (set_cluster (set_cluster_data (init []) Examples.eight_startups)
                   Examples.eight_clusters)
    = Returned (cluster_names Examples.eight_startups Examples.eight_clusters,
                set_cluster_name
                  (set_cluster (set_cluster_data (init []) Examples.eight_startups)
                               Examples.eight_clusters) col) /\
    List.length col = 8%nat.
Proof.
  split; [reflexivity |]. split; [reflexivity |].
  destruct (analyze_clusters_names_every_row
              (set_cluster (set_cluster_data (init []) Examples.eight_startups)
                           Examples.eight_clusters)
              Examples.eight_startups Examples.eight_clusters eq_refl eq_refl)
    as [col [H1 [H2 _]]].
  exists col. split; [exact H1 | exact H2].
Defined.

(** ** The complete pipeline *)

(** X9.  When [run_complete_clustering] returns on a new object, the
    feature table it returns is the one of the funding table, the scaler
    was given that table's imputed feature matrix, KMeans was trained with
    exactly the cluster count that the elbow selection stored (4, or 3 to
    9), and the [cluster_name] column has one entry per cluster label. *)
Theorem pipeline_trains_with_selected_k
  (log10 : float -> float)
  (fit_transform : list (list float) -> result (list (list float)))
  (KMeans_inertia : nat -> list (list float) -> result float)
  (KMeans_fit_predict : nat -> list (list float) -> result (list nat))
  (dataframe : list DF.row) (feats : list StartupFeatures)
  (self' : StartupClustering) :
  run_complete_clustering log10 fit_transform KMeans_inertia KMeans_fit_predict
                          (init dataframe)
  = Returned (feats, self') ->
  feats = startup_features log10 dataframe /\
  cluster_data self' = Some feats /\
  exists X n labels col,
    fit_transform (scaling_input feats) = Returned X /\
    optimal_k self' = Some n /\
    (n = 4%nat \/ (3 <= n /\ n < 10)%nat) /\
    KMeans_fit_predict n X = Returned labels /\
    cluster self' = Some labels /\
    cluster_name self' = Some col /\
    List.length col = List.length labels.
Proof.
  intros H. unfold run_complete_clustering in H.
  unfold prepare_features in H. cbn [bind fst snd df init] in H.
  set (sf := startup_features log10 dataframe) in *.
  set (self1 := set_cluster_data (init dataframe) sf) in *.
  destruct (find_optimal_k fit_transform KMeans_inertia 10 self1)
    as [[k self2] |] eqn:Hk; cbn [bind snd] in H; [| discriminate].
  destruct (find_optimal_k_returns fit_transform KMeans_inertia 10 self1 self2 k
              eq_refl Hk) as [n [-> [-> Hn]]].
  unfold train_kmeans in H. cbn [optimal_k set_optimal_k cluster_data self1
                                 set_cluster_data] in H.
  assert (Hn0 : Nat.eqb n 0 = false) by (apply Nat.eqb_neq; lia).
  rewrite Hn0 in H.
  destruct (fit_transform (scaling_input sf)) as [X |] eqn:Hft;
    cbn [bind] in H; [| discriminate].
  destruct (KMeans_fit_predict n X) as [labels |] eqn:Hkp;
    cbn [bind snd] in H; [| discriminate].
  unfold analyze_clusters in H.
  cbn [cluster_data cluster set_cluster set_optimal_k self1 set_cluster_data] in H.
  cbn [bind fst snd] in H. injection H as <- <-.
  split; [reflexivity |]. split; [reflexivity |].
  exists X, n, labels. eexists.
  split; [exact Hft |]. split; [reflexivity |]. split; [exact Hn |].
  split; [exact Hkp |]. split; [reflexivity |]. split; [reflexivity |].
  now rewrite length_map.
Qed.

(** X9, witness: the example table with the stand-in scaler and KMeans;
    the elbow selection stores 4. *)
Lemma pipeline_trains_with_selected_k_witness :
  value_of (run_complete_clustering ExampleRun.log10 ExampleRun.scaler
              ExampleRun.inertia ExampleRun.fit_predict
              (init Examples.funding_table))
  = Returned (startup_features ExampleRun.log10 Examples.funding_table) /\
  exists self',
    run_complete_clustering ExampleRun.log10 ExampleRun.scaler
      ExampleRun.inertia ExampleRun.fit_predict (init Examples.funding_table)
    = Returned (startup_features ExampleRun.log10 Examples.funding_table, self') /\
    optimal_k self' = Some 4%nat /\
    cluster self' = Some [0; 1; 2]%nat /\
    cluster_data self'
    = Some (startup_features ExampleRun.log10 Examples.funding_table).
Proof.
  split; [reflexivity |].
  pose (run := run_complete_clustering ExampleRun.log10 ExampleRun.scaler
                 ExampleRun.inertia ExampleRun.fit_predict
                 (init Examples.funding_table)).
  pose (final := match run with
                 | Returned (_, s) => s
                 | Raised _ => init []
                 end).
  assert (H : run = Returned (startup_features ExampleRun.log10
                                Examples.funding_table, final))
    by (vm_compute; reflexivity).
  exists final. split; [exact H |].
  split; [vm_compute; reflexivity |]. split; [vm_compute; reflexivity |].
  exact (proj1 (proj2 (pipeline_trains_with_selected_k
                         ExampleRun.log10 ExampleRun.scaler ExampleRun.inertia
                         ExampleRun.fit_predict Examples.funding_table
                         (startup_features ExampleRun.log10 Examples.funding_table)
                         final H))).
Defined.

(** ** Letter case and blanks in the loader *)

Ltac by_ascii_cases c :=
  destruct c as [[] [] [] [] [] [] [] []]; reflexivity.

Lemma is_space_upper_char (c : ascii) :
  PyStr.is_space (PyStr.upper_char c) = PyStr.is_space c.
Proof. by_ascii_cases c. Qed.

Lemma is_space_lower_char (c : ascii) :
  PyStr.is_space (PyText.lower_char c) = PyStr.is_space c.
Proof. by_ascii_cases c. Qed.

Lemma upper_char_idem (c : ascii) :
  PyStr.upper_char (PyStr.upper_char c) = PyStr.upper_char c.
Proof. by_ascii_cases c. Qed.

Lemma lower_char_idem (c : ascii) :
  PyText.lower_char (PyText.lower_char c) = PyText.lower_char c.
Proof. by_ascii_cases c. Qed.

Lemma upper_lower_char (c : ascii) :
  PyStr.upper_char (PyText.lower_char c) = PyStr.upper_char c.
Proof. by_ascii_cases c. Qed.

Lemma lower_upper_char (c : ascii) :
  PyText.lower_char (PyStr.upper_char c) = PyText.lower_char c.
Proof. by_ascii_cases c. Qed.

Lemma is_cased_upper_char (c : ascii) :
  PyText.is_cased (PyStr.upper_char c) = PyText.is_cased c.
Proof. by_ascii_cases c. Qed.

Lemma is_cased_lower_char (c : ascii) :
  PyText.is_cased (PyText.lower_char c) = PyText.is_cased c.
Proof. by_ascii_cases c. Qed.

Lemma space_not_cased (c : ascii) :
  PyStr.is_space c = true -> PyText.is_cased c = false.
Proof. destruct c as [[] [] [] [] [] [] [] []]; vm_compute; congruence. Qed.

Lemma upper_lstrip (s : string) :
  PyStr.upper (PyStr.lstrip s) = PyStr.lstrip (PyStr.upper s).
Proof.
  induction s as [| c t IH]; [reflexivity |].
  simpl. rewrite is_space_upper_char.
  destruct (PyStr.is_space c); [exact IH | reflexivity].
Qed.

Lemma upper_rstrip (s : string) :
  PyStr.upper (PyStr.rstrip s) = PyStr.rstrip (PyStr.upper s).
Proof.
  induction s as [| c t IH]; [reflexivity |].
  simpl. rewrite <- IH, is_space_upper_char.
  destruct (PyStr.rstrip t) as [| c' t']; simpl.
  - now destruct (PyStr.is_space c).
  - reflexivity.
Qed.

Lemma upper_strip (s : string) :
  PyStr.upper (PyStr.strip s) = PyStr.strip (PyStr.upper s).
Proof. unfold PyStr.strip. now rewrite upper_rstrip, upper_lstrip. Qed.

Lemma upper_idem (s : string) : PyStr.upper (PyStr.upper s) = PyStr.upper s.
Proof.
  induction s as [| c t IH]; [reflexivity |].
  simpl. now rewrite upper_char_idem, IH.
Qed.

Lemma upper_lower (s : string) : PyStr.upper (PyText.lower s) = PyStr.upper s.
Proof.
  induction s as [| c t IH]; [reflexivity |].
  simpl. now rewrite upper_lower_char, IH.
Qed.

Lemma lstrip_idem (s : string) : PyStr.lstrip (PyStr.lstrip s) = PyStr.lstrip s.
Proof.
  induction s as [| c t IH]; [reflexivity |].
  simpl. destruct (PyStr.is_space c) eqn:E; [exact IH |].
  simpl. now rewrite E.
Qed.

Lemma rstrip_cons (c : ascii) (t : string) :
  PyStr.rstrip (String c t)
  = match PyStr.rstrip t with
    | EmptyString =>
        if PyStr.is_space c then EmptyString else String c EmptyString
    | String c' t' => String c (String c' t')
    end.
Proof. simpl. now destruct (PyStr.rstrip t). Qed.

Lemma rstrip_idem (s : string) : PyStr.rstrip (PyStr.rstrip s) = PyStr.rstrip s.
Proof.
  induction s as [| c t IH]; [reflexivity |].
  rewrite (rstrip_cons c t). destruct (PyStr.rstrip t) as [| c' t'] eqn:E.
  - destruct (PyStr.is_space c) eqn:Ec; [reflexivity |].
    simpl. now rewrite Ec.
  - rewrite (rstrip_cons c (String c' t')), IH. reflexivity.
Qed.

(** [rstrip] keeps the first character of a string that does not start
    with a blank. *)
Lemma rstrip_head (c : ascii) (t : string) :
  PyStr.is_space c = false ->
  exists t', PyStr.rstrip (String c t) = String c t'.
Proof.
  intros E. simpl. destruct (PyStr.rstrip t) as [| c' t'].
  - rewrite E. now exists EmptyString.
  - now exists (String c' t').
Qed.

Lemma lstrip_rstrip_lstrip (s : string) :
  PyStr.lstrip (PyStr.rstrip (PyStr.lstrip s)) = PyStr.rstrip (PyStr.lstrip s).
Proof.
  induction s as [| c t IH]; [reflexivity |].
  simpl PyStr.lstrip at 2 3. destruct (PyStr.is_space c) eqn:E; [exact IH |].
  destruct (rstrip_head c t E) as [t' ->]. simpl. now rewrite E.
Qed.

Lemma strip_idem (s : string) : PyStr.strip (PyStr.strip s) = PyStr.strip s.
Proof.
  unfold PyStr.strip. now rewrite lstrip_rstrip_lstrip, rstrip_idem.
Qed.

(** X11.  [_clean_amount] reads a string without regard to the case of its
    ASCII letters or to blanks around it: the upper-cased, the lower-cased
    and the stripped string all give the amount of the string itself. *)
Theorem clean_amount_ignores_case_and_outer_blanks
  (float_of_str : string -> result float) (s : string) :
  DataLoader._clean_amount float_of_str (CStr (PyStr.upper s))
  = DataLoader._clean_amount float_of_str (CStr s) /\
  DataLoader._clean_amount float_of_str (CStr (PyText.lower s))
  = DataLoader._clean_amount float_of_str (CStr s) /\
  DataLoader._clean_amount float_of_str (CStr (PyStr.strip s))
  = DataLoader._clean_amount float_of_str (CStr s).
Proof.
  unfold DataLoader._clean_amount. cbn [isna].
  assert (H1 : PyStr.upper (PyStr.strip (PyStr.upper s))
               = PyStr.upper (PyStr.strip s)).
  { now rewrite <- upper_strip, upper_idem. }
  assert (H2 : PyStr.upper (PyStr.strip (PyText.lower s))
               = PyStr.upper (PyStr.strip s)).
  { now rewrite !upper_strip, upper_lower. }
  assert (H3 : PyStr.upper (PyStr.strip (PyStr.strip s))
               = PyStr.upper (PyStr.strip s)).
  { now rewrite strip_idem. }
  now rewrite H1, H2, H3.
Qed.

(** The amounts of the example strings in other spellings. *)
Example clean_amount_spellings :
  let clean := DataLoader._clean_amount Decimal.float_of_str in
  clean (CStr "  $1.5m ") = Returned (Fin 1500000) /\
  clean (CStr "$1.5M") = Returned (Fin 1500000) /\
  clean (CStr "5 cr") = clean (CStr "5 CR").
Proof. repeat split. Qed.

Lemma lower_lstrip (s : string) :
  PyText.lower (PyStr.lstrip s) = PyStr.lstrip (PyText.lower s).
Proof.
  induction s as [| c t IH]; [reflexivity |].
  simpl. rewrite is_space_lower_char.
  destruct (PyStr.is_space c); [exact IH | reflexivity].
Qed.

Lemma lower_rstrip (s : string) :
  PyText.lower (PyStr.rstrip s) = PyStr.rstrip (PyText.lower s).
Proof.
  induction s as [| c t IH]; [reflexivity |].
  simpl. rewrite <- IH, is_space_lower_char.
  destruct (PyStr.rstrip t) as [| c' t']; simpl.
  - now destruct (PyStr.is_space c).
  - reflexivity.
Qed.

Lemma lower_strip (s : string) :
  PyText.lower (PyStr.strip s) = PyStr.strip (PyText.lower s).
Proof. unfold PyStr.strip. now rewrite lower_rstrip, lower_lstrip. Qed.

Lemma title_from_upper (s : string) :
  forall b, PyText.title_from b (PyStr.upper s) = PyText.title_from b s.
Proof.
  induction s as [| c t IH]; intros b; [reflexivity |].
  simpl. rewrite is_cased_upper_char, IH, lower_upper_char, upper_char_idem.
  reflexivity.
Qed.

Lemma title_from_lower (s : string) :
  forall b, PyText.title_from b (PyText.lower s) = PyText.title_from b s.
Proof.
  induction s as [| c t IH]; intros b; [reflexivity |].
  simpl. rewrite is_cased_lower_char, IH, lower_char_idem, upper_lower_char.
  reflexivity.
Qed.

Lemma title_from_idem (s : string) :
  forall b,
    PyText.title_from b (PyText.title_from b s) = PyText.title_from b s.
Proof.
  induction s as [| c t IH]; intros b; [reflexivity |].
  simpl. destruct b.
  - rewrite is_cased_lower_char, IH, lower_char_idem. reflexivity.
  - rewrite is_cased_upper_char, IH, upper_char_idem. reflexivity.
Qed.

Lemma lstrip_title (s : string) :
  PyStr.lstrip (PyText.title_from false s)
  = PyText.title_from false (PyStr.lstrip s).
Proof.
  induction s as [| c t IH]; [reflexivity |].
  simpl. rewrite is_space_upper_char.
  destruct (PyStr.is_space c) eqn:E; [| reflexivity].
  now rewrite (space_not_cased c E).
Qed.

Lemma rstrip_title (s : string) :
  forall b,
    PyStr.rstrip (PyText.title_from b s)
    = PyText.title_from b (PyStr.rstrip s).
Proof.
  induction s as [| c t IH]; intros b; [reflexivity |].
  rewrite (rstrip_cons c t).
  change (PyText.title_from b (String c t))
    with (String (if b then PyText.lower_char c else PyStr.upper_char c)
                 (PyText.title_from (PyText.is_cased c) t)).
  rewrite rstrip_cons, IH.
  assert (Hsp : PyStr.is_space
                  (if b then PyText.lower_char c else PyStr.upper_char c)
                = PyStr.is_space c).
  { destruct b; [apply is_space_lower_char | apply is_space_upper_char]. }
  destruct (PyStr.rstrip t) as [| c' t'].
  - simpl PyText.title_from at 1. rewrite Hsp.
    now destruct (PyStr.is_space c).
  - reflexivity.
Qed.

Lemma strip_title (s : string) :
  PyStr.strip (PyText.title s) = PyText.title (PyStr.strip s).
Proof.
  unfold PyStr.strip, PyText.title. now rewrite lstrip_title, rstrip_title.
Qed.

Lemma ascii_upper_char (c : ascii) :
  PyText.ascii_char (PyStr.upper_char c) = PyText.ascii_char c.
Proof. by_ascii_cases c. Qed.

Lemma ascii_lower_char (c : ascii) :
  PyText.ascii_char (PyText.lower_char c) = PyText.ascii_char c.
Proof. by_ascii_cases c. Qed.

Lemma isascii_title_from (s : string) :
  forall b, PyText.isascii (PyText.title_from b s) = PyText.isascii s.
Proof.
  induction s as [| c t IH]; intros b; [reflexivity |].
  cbn [PyText.title_from PyText.isascii]. rewrite IH.
  destruct b; [now rewrite ascii_lower_char | now rewrite ascii_upper_char].
Qed.

Lemma isascii_lstrip (s : string) :
  PyText.isascii s = true -> PyText.isascii (PyStr.lstrip s) = true.
Proof.
  induction s as [| c t IH]; intros H; [reflexivity |].
  cbn [PyStr.lstrip]. destruct (PyStr.is_space c); [| exact H].
  cbn [PyText.isascii] in H. apply andb_true_iff in H. now apply IH.
Qed.

Lemma isascii_rstrip (s : string) :
  PyText.isascii s = true -> PyText.isascii (PyStr.rstrip s) = true.
Proof.
  induction s as [| c t IH]; intros H; [reflexivity |].
  cbn [PyText.isascii] in H. apply andb_true_iff in H. destruct H as [Hc Ht].
  rewrite rstrip_cons. specialize (IH Ht).
  destruct (PyStr.rstrip t) as [| c' t'].
  - destruct (PyStr.is_space c); [reflexivity |].
    cbn [PyText.isascii]. now rewrite Hc.
  - cbn [PyText.isascii] in *. now rewrite Hc.
Qed.

Lemma isascii_clean_text (s : string) :
  PyText.isascii s = true -> PyText.isascii (Columns.clean_text s) = true.
Proof.
  intros H. unfold Columns.clean_text, PyText.title, PyStr.strip.
  rewrite isascii_title_from. now apply isascii_rstrip, isascii_lstrip.
Qed.

(** X12.  On ASCII text the cleaning of a text field, [strip] then
    [title], gives a canonical spelling: the cleaned value is ASCII text
    again, cleaning it once more changes nothing, and values that differ
    only in the case of their letters or in blanks around them are cleaned
    to the same value. *)
Theorem clean_text_is_canonical (s : string) :
  PyText.isascii s = true ->
  PyText.isascii (Columns.clean_text s) = true /\
  Columns.clean_text (Columns.clean_text s) = Columns.clean_text s /\
  Columns.clean_text (PyStr.upper s) = Columns.clean_text s /\
  Columns.clean_text (PyText.lower s) = Columns.clean_text s /\
  Columns.clean_text (PyStr.strip s) = Columns.clean_text s.
Proof.
  intros Hs. split; [now apply isascii_clean_text |].
  unfold Columns.clean_text. repeat split.
  - rewrite strip_title, strip_idem. apply title_from_idem.
  - rewrite <- upper_strip. apply title_from_upper.
  - rewrite <- lower_strip. apply title_from_lower.
  - now rewrite strip_idem.
Qed.

(** X12, witness: a name with blanks around it and letters of both
    cases. *)
Lemma clean_text_is_canonical_witness :
  PyText.isascii "  paytech SOLUTIONS "%string = true /\
  Columns.clean_text "  paytech SOLUTIONS "%string = "Paytech Solutions"%string /\
  Columns.clean_text "Paytech Solutions"%string = "Paytech Solutions"%string /\
  Columns.clean_text (PyStr.upper "  paytech SOLUTIONS "%string)
  = Columns.clean_text "  paytech SOLUTIONS "%string.
Proof.
  assert (Hs : PyText.isascii "  paytech SOLUTIONS "%string = true)
    by reflexivity.
  split; [exact Hs |]. split; [reflexivity |]. split; [reflexivity |].
  exact (proj1 (proj2 (proj2
    (clean_text_is_canonical "  paytech SOLUTIONS "%string Hs)))).
Defined.

(** Names that differ in case and blanks, cleaned. *)
Example clean_text_examples :
  Columns.clean_text "  paytech SOLUTIONS "%string = "Paytech Solutions"%string /\
  Columns.clean_text "PayTech solutions"%string = "Paytech Solutions"%string /\
  Columns.clean_text "3m's co"%string = "3M'S Co"%string.
Proof. repeat split. Qed.

(** ** The standard column names *)

Lemma classify_standard (x name : string) :
  Columns.classify x = Some name -> In name Columns.standard_names.
Proof.
  unfold Columns.classify, Columns.standard_names.
  repeat match goal with
         | |- context [if ?b then _ else _] => destruct b
         end;
    intros H; try discriminate; injection H as <-; simpl; tauto.
Qed.

Lemma wanted_standard_name (name : string) :
  In name Columns.standard_names -> Columns.wanted name = Some name.
Proof.
  intros H. repeat (destruct H as [<- | H]; [reflexivity |]). destruct H.
Qed.

Lemma dict_get_In (k v : string) (d : Columns.dict) :
  Columns.dict_get k d = Some v -> In (k, v) d.
Proof.
  induction d as [| [k' v'] rest IH]; simpl; [discriminate |].
  destruct (String.eqb k' k) eqn:E.
  - intros H. injection H as <-. apply String.eqb_eq in E. subst. now left.
  - intros H. right. now apply IH.
Qed.

Lemma In_dict_get (k v : string) (d : Columns.dict) :
  NoDup (map fst d) -> In (k, v) d -> Columns.dict_get k d = Some v.
Proof.
  induction d as [| [k' v'] rest IH]; intros Hnd Hin; [destruct Hin |].
  simpl in *. inversion Hnd as [| ? ? Hnot Hnd']; subst.
  destruct Hin as [H | H].
  - injection H as -> ->. now rewrite String.eqb_refl.
  - destruct (String.eqb k' k) eqn:E.
    + apply String.eqb_eq in E. subst k'.
      exfalso. apply Hnot. apply in_map_iff. now exists (k, v).
    + now apply IH.
Qed.

Lemma dict_set_absent (d : Columns.dict) (k v : string) :
  ~ In k (map fst d) -> Columns.dict_set d k v = d ++ [(k, v)].
Proof.
  induction d as [| [k' v'] rest IH]; intros H; [reflexivity |].
  simpl in *. destruct (String.eqb k' k) eqn:E.
  - apply String.eqb_eq in E. subst. exfalso. apply H. now left.
  - rewrite IH; [reflexivity |]. intros Hin. apply H. now right.
Qed.

Lemma mapping_ok_keys (d : Columns.dict) : mapping_ok d -> NoDup (map fst d).
Proof.
  induction d as [| [c name] rest IH]; intros [Hw Hnd]; [constructor |].
  simpl in *. inversion Hnd as [| ? ? Hnot Hnd']; subst.
  constructor.
  - intros Hin. apply in_map_iff in Hin. destruct Hin as [[c' name'] [Hc Hin]].
    simpl in Hc. subst c'.
    pose proof (Hw c name' (or_intror Hin)) as H1.
    pose proof (Hw c name (or_introl eq_refl)) as H2.
    rewrite H1 in H2. injection H2 as ->. apply Hnot. unfold Columns.values.
    apply in_map_iff. now exists (c, name).
  - apply IH. split; [| exact Hnd'].
    intros c' name' Hin. apply Hw. now right.
Qed.

Lemma existsb_eqb_In (name : string) (l : list string) :
  existsb (String.eqb name) l = true <-> In name l.
Proof.
  rewrite existsb_exists. split.
  - intros [x [Hx E]]. apply String.eqb_eq in E. now subst.
  - intros H. exists name. split; [exact H | apply String.eqb_refl].
Qed.

Lemma first_wanting_cons (name x : string) (xs : list string) :
  Columns.first_wanting name (x :: xs)
  = match Columns.wanted x with
    | Some n => if String.eqb n name then Some x
                else Columns.first_wanting name xs
    | None => Columns.first_wanting name xs
    end.
Proof.
  unfold Columns.first_wanting. simpl.
  destruct (Columns.wanted x) as [n |]; [| reflexivity].
  now destruct (String.eqb n name).
Qed.

(** The dictionary after the loop over [columns], started from [d]. *)
Lemma visit_all (columns : list string) :
  forall d,
    mapping_ok d ->
    mapping_ok (fold_left Columns.visit columns d) /\
    forall c name,
      In (c, name) (fold_left Columns.visit columns d) <->
      In (c, name) d \/
      (~ In name (Columns.values d) /\
       Columns.first_wanting name columns = Some c).
Proof.
  induction columns as [| x xs IH]; intros d Hok.
  - simpl. split; [exact Hok |]. intros c name. split; [now left |].
    intros [H | [_ H]]; [exact H | discriminate].
  - simpl fold_left. unfold Columns.visit at 2 4.
    destruct (Columns.wanted x) as [tx |] eqn:Hx.
    + destruct (existsb (String.eqb tx) (Columns.values d)) eqn:Hex.
      * apply existsb_eqb_In in Hex.
        destruct (IH d Hok) as [Hok' Hmem]. split; [exact Hok' |].
        intros c name. rewrite Hmem, first_wanting_cons, Hx.
        destruct (String.eqb tx name) eqn:E; [| reflexivity].
        apply String.eqb_eq in E. subst name.
        split; intros [H | [Hn _]]; auto; contradiction.
      * assert (Hnin : ~ In tx (Columns.values d)).
        { intros H. apply existsb_eqb_In in H. congruence. }
        assert (Hkey : ~ In x (map fst d)).
        { intros Hin. apply in_map_iff in Hin.
          destruct Hin as [[c name] [Hc Hin]]. simpl in Hc. subst c.
          destruct Hok as [Hw _]. pose proof (Hw _ _ Hin) as Hwx.
          rewrite Hx in Hwx. injection Hwx as ->.
          apply Hnin. unfold Columns.values. apply in_map_iff.
          now exists (x, name). }
        rewrite (dict_set_absent d x tx Hkey).
        assert (Hok1 : mapping_ok (d ++ [(x, tx)])).
        { destruct Hok as [Hw Hnd]. split.
          - intros c name Hin. apply in_app_iff in Hin.
            destruct Hin as [Hin | [Heq | []]]; [now apply Hw |].
            injection Heq as <- <-. exact Hx.
          - unfold Columns.values in *. rewrite map_app. simpl.
            apply NoDup_app_remove_l with (l := []). simpl.
            apply Permutation_NoDup with (l := tx :: map snd d).
            + apply Permutation_cons_append.
            + now constructor. }
        destruct (IH _ Hok1) as [Hok' Hmem]. split; [exact Hok' |].
        intros c name. rewrite Hmem, first_wanting_cons, Hx.
        unfold Columns.values. rewrite map_app, !in_app_iff. simpl.
        destruct (String.eqb tx name) eqn:E.
        -- apply String.eqb_eq in E. subst name. split.
           ++ intros [[H | [H | []]] | [Hn _]].
              ** now left.
              ** injection H as <-. right. split; [exact Hnin | reflexivity].
              ** exfalso. apply Hn. right. now left.
           ++ intros [H | [_ H]]; [left; now left |].
              injection H as <-. left. right. now left.
        -- apply String.eqb_neq in E. split.
           ++ intros [[H | [H | []]] | [Hn Hf]].
              ** now left.
              ** injection H as _ H. contradiction.
              ** right. split; [| exact Hf]. intros H. apply Hn. now left.
           ++ intros [H | [Hn Hf]]; [left; now left |].
              right. split; [| exact Hf].
              intros [H | [H | []]]; [contradiction | contradiction].
    + destruct (IH d Hok) as [Hok' Hmem]. split; [exact Hok' |].
      intros c name. now rewrite Hmem, first_wanting_cons, Hx.
Qed.

Lemma column_mapping_spec (columns : list string) :
  mapping_ok (Columns.column_mapping columns) /\
  forall c name,
    In (c, name) (Columns.column_mapping columns) <->
    Columns.first_wanting name columns = Some c.
Proof.
  assert (Hnil : mapping_ok []).
  { split; [intros ? ? [] | constructor]. }
  destruct (visit_all columns [] Hnil) as [Hok Hmem].
  split; [exact Hok |]. intros c name.
  unfold Columns.column_mapping. rewrite Hmem. split.
  - intros [[] | [_ H]]. exact H.
  - intros H. right. split; [intros [] | exact H].
Qed.

Lemma standardize_columns_rename (columns : list string) :
  Columns.standardize_columns columns
  = Columns.rename (Columns.column_mapping columns) columns.
Proof.
  unfold Columns.standardize_columns.
  destruct (Columns.column_mapping columns) as [| p m]; [| reflexivity].
  unfold Columns.rename. simpl. symmetry. apply map_id.
Qed.

Lemma first_wanting_some (name c : string) (columns : list string) :
  Columns.first_wanting name columns = Some c ->
  In c columns /\ Columns.wanted c = Some name.
Proof.
  unfold Columns.first_wanting. intros H. apply find_some in H.
  destruct H as [Hin Hp]. split; [exact Hin |].
  destruct (Columns.wanted c) as [n |]; [| discriminate].
  apply String.eqb_eq in Hp. now subst.
Qed.

(** X13.  The dictionary built by [standardize_columns] gives every
    standard name at most once, and gives it to the first column, in table
    order, whose name asks for it; its keys are pairwise different and its
    values are among the eight standard names.  After the renaming there
    are as many columns as before, and each one either keeps its name or
    carries the standard name its own name asked for. *)
Theorem standard_names_go_to_first_columns (columns : list string) :
  NoDup (Columns.values (Columns.column_mapping columns)) /\
  NoDup (map fst (Columns.column_mapping columns)) /\
  (forall c name,
     In (c, name) (Columns.column_mapping columns) <->
     Columns.first_wanting name columns = Some c) /\
  (forall name, In name (Columns.values (Columns.column_mapping columns)) ->
                In name Columns.standard_names) /\
  List.length (Columns.standardize_columns columns) = List.length columns /\
  forall i, (i < List.length columns)%nat ->
    let old := nth i columns EmptyString in
    let new := nth i (Columns.standardize_columns columns) EmptyString in
    new = old \/
    (Columns.wanted old = Some new /\ In new Columns.standard_names /\
     Columns.first_wanting new columns = Some old).
Proof.
  destruct (column_mapping_spec columns) as [Hok Hmem].
  pose proof (mapping_ok_keys _ Hok) as Hkeys.
  destruct Hok as [Hw Hnd].
  assert (Hstd : forall c name, In (c, name) (Columns.column_mapping columns) ->
                                In name Columns.standard_names).
  { intros c name Hin. apply Hw in Hin. unfold Columns.wanted in Hin.
    exact (classify_standard _ _ Hin). }
  split; [exact Hnd |]. split; [exact Hkeys |]. split; [exact Hmem |].
  split.
  { intros name Hin. unfold Columns.values in Hin. apply in_map_iff in Hin.
    destruct Hin as [[c n] [Hn Hin]]. simpl in Hn. subst n.
    exact (Hstd c name Hin). }
  rewrite standardize_columns_rename. unfold Columns.rename.
  split; [apply length_map |].
  intros i Hi. cbv zeta.
  rewrite (nth_indep _ EmptyString
             (match Columns.dict_get EmptyString (Columns.column_mapping columns) with
              | Some name => name
              | None => EmptyString
              end)) by (now rewrite length_map).
  rewrite (map_nth (fun col =>
                      match Columns.dict_get col (Columns.column_mapping columns) with
                      | Some name => name
                      | None => col
                      end)).
  set (old := nth i columns EmptyString).
  destruct (Columns.dict_get old (Columns.column_mapping columns)) as [name |] eqn:E;
    [| now left].
  right. apply dict_get_In in E.
  split; [now apply Hw |]. split; [exact (Hstd old name E) | now apply Hmem].
Qed.

(** The header of a funding table, standardized. *)
Example standardize_columns_example :
  Columns.standardize_columns
    [ "Sr No"; "Date dd/mm/yyyy"; "Startup Name"; "Industry Vertical";
      "SubVertical"; "City  Location"; "Investors Name"; "InvestmentnType";
      "Amount in USD"; "Remarks" ]%string
  = [ "Sr No"; "date"; "startup_name"; "industry";
      "SubVertical"; "City  Location"; "investors"; "InvestmentnType";
      "funding_amount_usd"; "Remarks" ]%string.
Proof. reflexivity. Qed.

Lemma find_map {A B : Type} (p : B -> bool) (g : A -> B) (l : list A) :
  find p (map g l) = option_map g (find (fun x => p (g x)) l).
Proof.
  induction l as [| x t IH]; [reflexivity |].
  simpl. now destruct (p (g x)).
Qed.

Lemma find_pointwise {A : Type} (p q : A -> bool) (l : list A) :
  (forall x, p x = q x) -> find p l = find q l.
Proof.
  intros H. induction l as [| x t IH]; [reflexivity |].
  simpl. now rewrite H, IH.
Qed.

(** X14.  [standardize_columns] is idempotent: standardizing column names
    that have been standardized changes none of them. *)
Theorem standardize_columns_idempotent (columns : list string) :
  Columns.standardize_columns (Columns.standardize_columns columns)
  = Columns.standardize_columns columns.
Proof.
  rewrite (standardize_columns_rename (Columns.standardize_columns columns)).
  rewrite (standardize_columns_rename columns).
  set (m := Columns.column_mapping columns).
  set (rn := fun col => match Columns.dict_get col m with
                        | Some name => name
                        | None => col
                        end).
  change (Columns.rename m columns) with (map rn columns).
  destruct (column_mapping_spec columns) as [Hok Hmem]. fold m in Hok, Hmem.
  pose proof (mapping_ok_keys _ Hok) as Hkeys.
  destruct Hok as [Hw _].
  (* renaming does not change what a column asks for *)
  assert (Hwanted : forall c, Columns.wanted (rn c) = Columns.wanted c).
  { intros c. unfold rn.
    destruct (Columns.dict_get c m) as [name |] eqn:E; [| reflexivity].
    apply dict_get_In in E. apply Hw in E. rewrite E.
    apply wanted_standard_name. unfold Columns.wanted in E.
    exact (classify_standard _ _ E). }
  (* the first column that asks for a name carries it after the renaming *)
  assert (Hfirst : forall name c',
            Columns.first_wanting name (map rn columns) = Some c' -> c' = name).
  { intros name c' H. unfold Columns.first_wanting in H.
    rewrite find_map in H.
    rewrite (find_pointwise _
               (fun col => match Columns.wanted col with
                           | Some n => String.eqb n name
                           | None => false
                           end)) in H
      by (intros x; now rewrite Hwanted).
    fold (Columns.first_wanting name columns) in H.
    destruct (Columns.first_wanting name columns) as [c |] eqn:Hc;
      [| discriminate].
    simpl in H. injection H as <-.
    apply Hmem in Hc. unfold rn.
    now rewrite (In_dict_get c name m Hkeys Hc). }
  destruct (column_mapping_spec (map rn columns)) as [_ Hmem'].
  unfold Columns.rename.
  transitivity (map (fun x : string => x) (map rn columns)); [| apply map_id].
  apply map_ext. intros c'.
  destruct (Columns.dict_get c' (Columns.column_mapping (map rn columns)))
    as [name |] eqn:E; [| reflexivity].
  apply dict_get_In in E. apply Hmem' in E. symmetry. exact (Hfirst name c' E).
Qed.

(** ** Spelled-out magnitudes *)

Lemma prefix_nil (t : string) : String.prefix EmptyString t = true.
Proof. now destruct t. Qed.

Lemma contains_char (c : ascii) (s : string) :
  PyStr.contains (String c EmptyString) s = true <-> PyText.occurs c s.
Proof.
  unfold PyText.occurs, PyText.chars.
  induction s as [| b t IH]; simpl.
  - split; [discriminate | intros []].
  - destruct (ascii_dec c b) as [-> | Hne].
    + rewrite prefix_nil. split; [now left | reflexivity].
    + rewrite IH. split; [now right |].
      intros [H | H]; [congruence | exact H].
Qed.

Lemma prefix_chars (p t : string) :
  String.prefix p t = true ->
  firstn (String.length p) (PyText.chars t) = PyText.chars p.
Proof.
  revert p. induction t as [| b t IH]; intros [| a p] H; simpl in *;
    try reflexivity; try discriminate.
  destruct (ascii_dec a b) as [-> | _]; [| discriminate].
  unfold PyText.chars in *. simpl. f_equal. now apply IH.
Qed.

(** Removing the occurrences of a text keeps every character that the
    text does not contain. *)
Lemma replace_from_keeps (a : ascii) (old' : string) (c : ascii) :
  ~ PyText.occurs c (String a old') ->
  forall s skip,
    Forall (fun x => PyText.occurs x (String a old'))
           (firstn skip (PyText.chars s)) ->
    PyText.occurs c s ->
    PyText.occurs c (PyStr.replace_from (String a old') EmptyString skip s).
Proof.
  intros Hc. induction s as [| b t IH]; intros skip Hskip Hocc; [destruct Hocc |].
  destruct skip as [| k].
  - cbn [PyStr.replace_from].
    destruct (String.prefix (String a old') (String b t)) eqn:Hp.
    + cbn [append]. simpl in Hp.
      destruct (ascii_dec a b) as [-> | _]; [| discriminate].
      apply IH.
      * replace (String.length (String b old') - 1)%nat
          with (String.length old') by (simpl; lia).
        rewrite (prefix_chars old' t Hp).
        apply Forall_forall. intros x Hx. right. exact Hx.
      * destruct Hocc as [<- | Hocc]; [| exact Hocc].
        exfalso. apply Hc. now left.
    + destruct Hocc as [<- | Hocc]; [now left |].
      right. apply IH; [constructor | exact Hocc].
  - cbn [PyStr.replace_from]. unfold PyText.chars in Hskip. simpl in Hskip.
    inversion Hskip as [| ? ? Hb Hrest]; subst.
    apply IH; [exact Hrest |].
    destruct Hocc as [<- | Hocc]; [contradiction | exact Hocc].
Qed.

Lemma replace_keeps (a : ascii) (old' : string) (c : ascii) (s : string) :
  ~ PyText.occurs c (String a old') ->
  PyText.occurs c s ->
  PyText.occurs c (PyStr.replace (String a old') EmptyString s).
Proof.
  intros Hc Hocc. unfold PyStr.replace.
  apply replace_from_keeps; [exact Hc | constructor | exact Hocc].
Qed.

(** Removing a character leaves none of it. *)
Lemma replace_char_removes (c : ascii) (s : string) :
  ~ PyText.occurs c (PyStr.replace (String c EmptyString) EmptyString s).
Proof.
  unfold PyStr.replace. induction s as [| b t IH]; [intros [] |].
  cbn [PyStr.replace_from]. simpl String.prefix.
  destruct (ascii_dec c b) as [-> | Hne].
  - rewrite prefix_nil. exact IH.
  - intros [H | H]; [congruence | now apply IH].
Qed.

(** A text whose first character is absent has no occurrence to replace. *)
Lemma replace_absent (a : ascii) (old' new s : string) :
  ~ PyText.occurs a s -> PyStr.replace (String a old') new s = s.
Proof.
  unfold PyStr.replace. induction s as [| b t IH]; intros H; [reflexivity |].
  cbn [PyStr.replace_from]. simpl String.prefix.
  destruct (ascii_dec a b) as [-> | Hne].
  - exfalso. apply H. now left.
  - f_equal. apply IH. intros Hin. apply H. now right.
Qed.

Lemma lstrip_keeps (c : ascii) (s : string) :
  PyStr.is_space c = false -> PyText.occurs c s ->
  PyText.occurs c (PyStr.lstrip s).
Proof.
  intros Hc. induction s as [| b t IH]; intros H; [destruct H |].
  simpl. destruct (PyStr.is_space b) eqn:E; [| exact H].
  destruct H as [<- | H]; [congruence | now apply IH].
Qed.

Lemma rstrip_keeps (c : ascii) (s : string) :
  PyStr.is_space c = false -> PyText.occurs c s ->
  PyText.occurs c (PyStr.rstrip s).
Proof.
  intros Hc. induction s as [| b t IH]; intros H; [destruct H |].
  rewrite rstrip_cons. destruct H as [<- | H].
  - destruct (PyStr.rstrip t); [rewrite Hc |]; now left.
  - specialize (IH H). destruct (PyStr.rstrip t) as [| c' t'];
      [destruct IH | now right].
Qed.

Lemma strip_keeps (c : ascii) (s : string) :
  PyStr.is_space c = false -> PyText.occurs c s ->
  PyText.occurs c (PyStr.strip s).
Proof.
  intros Hc H. unfold PyStr.strip. now apply rstrip_keeps, lstrip_keeps.
Qed.

Ltac not_in_text :=
  let Hin := fresh "Hin" in
  unfold PyText.occurs, PyText.chars; simpl;
  intros Hin; repeat (destruct Hin as [Hin | Hin]; [discriminate Hin |]);
  exact Hin.

(** The text that is left of an amount with an [L] and a [B], [M] or [K]
    still holds the [L]. *)
Lemma scaled_text_keeps_L (t : string) :
  PyText.occurs "L" t ->
  PyText.occurs "B" t \/ PyText.occurs "M" t \/ PyText.occurs "K" t ->
  PyText.occurs "L" (snd (DataLoader.scaled_text t)).
Proof.
  intros HL Hany. unfold DataLoader.scaled_text.
  set (a := PyStr.replace ","
              "" (PyStr.replace "₹" "" (PyStr.replace "$" "" t))).
  assert (Hkeep : forall c : ascii,
            ~ PyText.occurs c "$" -> ~ PyText.occurs c "₹" ->
            ~ PyText.occurs c "," -> PyText.occurs c t -> PyText.occurs c a).
  { intros c H1 H2 H3 Hc. unfold a.
    apply replace_keeps; [exact H3 |].
    apply replace_keeps; [exact H2 |].
    apply replace_keeps; [exact H1 | exact Hc]. }
  assert (HLa : PyText.occurs "L" a) by (apply Hkeep; [not_in_text .. | exact HL]).
  destruct (PyStr.contains "B" a || PyStr.contains "BILLION" a) eqn:EB.
  { cbn [snd]. rewrite replace_absent by apply replace_char_removes.
    apply replace_keeps; [not_in_text | exact HLa]. }
  apply orb_false_elim in EB. destruct EB as [EB _].
  destruct (PyStr.contains "M" a || PyStr.contains "MILLION" a) eqn:EM.
  { cbn [snd]. rewrite replace_absent by apply replace_char_removes.
    apply replace_keeps; [not_in_text | exact HLa]. }
  apply orb_false_elim in EM. destruct EM as [EM _].
  assert (HK : PyStr.contains "K" a = true).
  { apply contains_char.
    destruct Hany as [H | [H | H]].
    - exfalso. assert (PyStr.contains "B" a = true); [| congruence].
      apply contains_char. apply Hkeep; [not_in_text .. | exact H].
    - exfalso. assert (PyStr.contains "M" a = true); [| congruence].
      apply contains_char. apply Hkeep; [not_in_text .. | exact H].
    - apply Hkeep; [not_in_text .. | exact H]. }
  rewrite HK. cbn [orb snd].
  apply replace_keeps; [not_in_text |].
  apply replace_keeps; [not_in_text | exact HLa].
Qed.

(** X15.  If [float()] rejects every text that holds the letter [L], as
    Python's does, then an amount whose upper-cased text holds an [L]
    together with a [B], an [M] or a [K] is parsed to 0: the spelled-out
    words [million], [billion] and [lakh] never yield an amount. *)
Theorem amounts_with_L_and_B_M_K_give_zero
  (float_of_str : string -> result float) (s : string) :
  (forall t, PyText.occurs "L" t -> exists e, float_of_str t = Raised e) ->
  PyText.occurs "L" (PyStr.upper (PyStr.strip s)) ->
  PyText.occurs "B" (PyStr.upper (PyStr.strip s)) \/
  PyText.occurs "M" (PyStr.upper (PyStr.strip s)) \/
  PyText.occurs "K" (PyStr.upper (PyStr.strip s)) ->
  DataLoader._clean_amount float_of_str (CStr s) = Returned Float.zero.
Proof.
  intros Hf HL Hany. unfold DataLoader._clean_amount. cbn [isna].
  unfold DataLoader.parse_scaled.
  pose proof (scaled_text_keeps_L _ HL Hany) as Hleft.
  apply (strip_keeps "L") in Hleft; [| reflexivity].
  destruct (Hf _ Hleft) as [e He]. now rewrite He.
Qed.

Lemma digits_keep_L (s : string) :
  forall acc n,
    PyText.occurs "L" s ->
    PyText.occurs "L" (snd (Decimal.digits acc n s)).
Proof.
  induction s as [| c t IH]; intros acc n H; [destruct H |].
  simpl. destruct (Decimal.digit c) as [d |] eqn:E; [| exact H].
  apply IH. destruct H as [-> | H]; [vm_compute in E; discriminate E | exact H].
Qed.

Lemma sign_keeps_L (s : string) :
  PyText.occurs "L" s -> PyText.occurs "L" (snd (Decimal.sign s)).
Proof.
  destruct s as [| c t]; intros H; [destruct H |].
  destruct H as [-> | H]; [simpl; now left |].
  destruct c as [[] [] [] [] [] [] [] []]; simpl;
    solve [exact H | right; exact H].
Qed.

Lemma exponent_rejects_L (s : string) :
  PyText.occurs "L" s -> Decimal.exponent s = None.
Proof.
  destruct s as [| c t]; intros H; [destruct H |].
  destruct H as [-> | H]; [reflexivity |].
  pose proof (digits_keep_L _ 0 0%nat (sign_keeps_L t H)) as Hrest.
  destruct c as [[] [] [] [] [] [] [] []]; try reflexivity.
  simpl. destruct (Decimal.sign t) as [neg t1].
  simpl in Hrest.
  destruct (Decimal.digits 0 0 t1) as [[e n] rest].
  simpl in Hrest. destruct n; [reflexivity |].
  destruct rest; [destruct Hrest | reflexivity].
Qed.

Lemma magnitude_rejects_L (s : string) :
  PyText.occurs "L" s -> Decimal.magnitude s = None.
Proof.
  intros H. unfold Decimal.magnitude.
  destruct (String.eqb s "INF") eqn:E1.
  { apply String.eqb_eq in E1. subst. exfalso. revert H. not_in_text. }
  destruct (String.eqb s "INFINITY") eqn:E2.
  { apply String.eqb_eq in E2. subst. exfalso. revert H. not_in_text. }
  destruct (String.eqb s "NAN") eqn:E3.
  { apply String.eqb_eq in E3. subst. exfalso. revert H. not_in_text. }
  cbn [orb].
  pose proof (digits_keep_L s 0 0%nat H) as H1.
  destruct (Decimal.digits 0 0 s) as [[i ni] r1]. simpl in H1.
  assert (H2 : PyText.occurs "L"
                 (snd (match r1 with
                       | String "."%char t => Decimal.digits 0 0 t
                       | _ => (0, 0%nat, r1)
                       end))).
  { destruct r1 as [| c t]; [destruct H1 |].
    destruct H1 as [-> | H1]; [simpl; now left |].
    destruct c as [[] [] [] [] [] [] [] []];
      solve [right; exact H1 | apply digits_keep_L; exact H1]. }
  destruct (match r1 with
            | String "."%char t => Decimal.digits 0 0 t
            | _ => (0, 0%nat, r1)
            end) as [[f nf] r2].
  simpl in H2. rewrite (exponent_rejects_L r2 H2).
  now destruct (ni + nf)%nat.
Qed.

(** The decimal reader rejects every text that holds the letter [L]. *)
Lemma decimal_rejects_L (s : string) :
  PyText.occurs "L" s -> Decimal.float_of_str s = Raised ValueError.
Proof.
  intros H. unfold Decimal.float_of_str.
  pose proof (sign_keeps_L s H) as Ht.
  destruct (Decimal.sign s) as [neg t]. simpl in Ht.
  now rewrite (magnitude_rejects_L t Ht).
Qed.

(** X15, witness: the amount [5 million] with the decimal reader. *)
Lemma amounts_with_L_and_B_M_K_give_zero_witness :
  (forall t, PyText.occurs "L" t ->
             exists e, Decimal.float_of_str t = Raised e) /\
  PyText.occurs "L" (PyStr.upper (PyStr.strip "5 million")) /\
  PyText.occurs "M" (PyStr.upper (PyStr.strip "5 million")) /\
  DataLoader._clean_amount Decimal.float_of_str (CStr "5 million")
  = Returned Float.zero.
Proof.
  assert (Hf : forall t, PyText.occurs "L" t ->
                         exists e, Decimal.float_of_str t = Raised e).
  { intros t H. exists ValueError. now apply decimal_rejects_L. }
  assert (HL : PyText.occurs "L" (PyStr.upper (PyStr.strip "5 million"))).
  { unfold PyText.occurs. simpl. tauto. }
  assert (HM : PyText.occurs "M" (PyStr.upper (PyStr.strip "5 million"))).
  { unfold PyText.occurs. simpl. tauto. }
  split; [exact Hf |]. split; [exact HL |]. split; [exact HM |].
  exact (amounts_with_L_and_B_M_K_give_zero Decimal.float_of_str "5 million"
           Hf HL (or_intror (or_introl HM))).
Defined.

(** ** Cleaned names and the grouping *)

Lemma clean_text_of_upper_strip (s1 s2 : string) :
  PyStr.upper (PyStr.strip s1) = PyStr.upper (PyStr.strip s2) ->
  Columns.clean_text s1 = Columns.clean_text s2.
Proof.
  intros H. unfold Columns.clean_text, PyText.title.
  rewrite <- (title_from_upper (PyStr.strip s1)),
          <- (title_from_upper (PyStr.strip s2)).
  now rewrite H.
Qed.

(** X16.  After the text fields are cleaned, two records whose startup
    names differ only in the case of ASCII letters or in blanks around
    them are grouped by [prepare_features] into one feature row, whose name
    is the cleaned spelling. *)
Theorem spelling_variants_share_a_feature_row
  (log10 : float -> float) (df : list DF.row) (r1 r2 : DF.row) :
  In r1 df -> In r2 df ->
  PyStr.upper (PyStr.strip (DF.startup_name r1))
  = PyStr.upper (PyStr.strip (DF.startup_name r2)) ->
  exists e,
    In e (startup_features log10 (clean_text_fields df)) /\
    startup_name e = Columns.clean_text (DF.startup_name r1) /\
    startup_name e = Columns.clean_text (DF.startup_name r2) /\
    In (clean_row r1) (records_of (startup_name e) (clean_text_fields df)) /\
    In (clean_row r2) (records_of (startup_name e) (clean_text_fields df)).
Proof.
  intros H1 H2 Heq.
  pose proof (clean_text_of_upper_strip _ _ Heq) as Hname.
  assert (Hc1 : In (clean_row r1) (clean_text_fields df)) by (now apply in_map).
  assert (Hc2 : In (clean_row r2) (clean_text_fields df)) by (now apply in_map).
  assert (Hin : In (Columns.clean_text (DF.startup_name r1))
                   (map startup_name
                        (startup_features log10 (clean_text_fields df)))).
  { apply feature_names_In. apply in_map_iff. now exists (clean_row r1). }
  apply in_map_iff in Hin. destruct Hin as [e [He Hin]].
  exists e. split; [exact Hin |]. split; [exact He |].
  split; [now rewrite He |].
  unfold records_of. rewrite !filter_In, He. repeat split; try assumption.
  - apply String.eqb_refl.
  - simpl. rewrite Hname. apply String.eqb_refl.
Qed.

(** X16, witness: [ paytech solutions] and [PayTech SOLUTIONS ] become the
    one startup [Paytech Solutions], with two rounds. *)
Lemma spelling_variants_share_a_feature_row_witness :
  map DF.startup_name (clean_text_fields spelled_table)
  = [ "Paytech Solutions"; "Edulearn"; "Paytech Solutions" ]%string /\
  forall log10 : float -> float,
    map (fun e => (startup_name e, num_funding_rounds e))
        (startup_features log10 (clean_text_fields spelled_table))
    = [ ("Edulearn"%string, 1%nat); ("Paytech Solutions"%string, 2%nat) ] /\
    exists e,
      In e (startup_features log10 (clean_text_fields spelled_table)) /\
      startup_name e = "Paytech Solutions"%string.
Proof.
  split; [reflexivity |]. intros log10. split; [reflexivity |].
  destruct (spelling_variants_share_a_feature_row
              log10 spelled_table
              (nth 0 spelled_table (clean_row (DF.mk "" NaN 0 "" "")))
              (nth 2 spelled_table (clean_row (DF.mk "" NaN 0 "" "")))
              (or_introl eq_refl)
              (or_intror (or_intror (or_introl eq_refl)))
              eq_refl) as [e [Hin [He _]]].
  exists e. split; [exact Hin | exact He].
Defined.

(** ** The investors of one cell *)

Lemma split_without_separator (sep : ascii) (s : string) :
  ~ PyText.occurs sep s -> Investors.split sep s = [s].
Proof.
  induction s as [| c t IH]; intros H; [reflexivity |].
  simpl. destruct (Ascii.eqb c sep) eqn:E.
  - apply Ascii.eqb_eq in E. subst. exfalso. apply H. now left.
  - rewrite IH; [reflexivity |]. intros Hin. apply H. now right.
Qed.

Lemma split_at_separator (sep : ascii) (x y : string) :
  ~ PyText.occurs sep x ->
  Investors.split sep (x ++ String sep y)%string = x :: Investors.split sep y.
Proof.
  induction x as [| c t IH]; intros H.
  - simpl. now rewrite Ascii.eqb_refl.
  - simpl. destruct (Ascii.eqb c sep) eqn:E.
    + apply Ascii.eqb_eq in E. subst. exfalso. apply H. now left.
    + rewrite IH; [reflexivity |]. intros Hin. apply H. now right.
Qed.

Lemma investors_list_after_blank (s : string) :
  Investors.investors_list (String " " s) = Investors.investors_list s.
Proof.
  unfold Investors.investors_list. simpl.
  destruct (Investors.split "," s) as [| piece pieces] eqn:E.
  - destruct s; simpl in E; [discriminate |].
    destruct (Ascii.eqb a ","); [discriminate |].
    destruct (Investors.split "," s); discriminate.
  - reflexivity.
Qed.

(** X17.  The names that [generate_dataset] joins with a comma and a blank
    into one cell are the names that [analyze_investors] reads back from
    it, in the same order, when no name holds a comma or has blanks around
    it. *)
Theorem investors_written_are_read_back (names : list string) :
  names <> [] ->
  Forall (fun name => ~ PyText.occurs "," name /\ PyStr.strip name = name) names ->
  Investors.investors_list (Investors.written names) = names.
Proof.
  intros Hne Hall. induction Hall as [| x rest [Hx Hs] Hrest IH];
    [contradiction |].
  destruct rest as [| y rest'].
  - unfold Investors.written, Investors.investors_list. cbn [Investors.join].
    rewrite (split_without_separator "," x Hx). cbn [map]. now rewrite Hs.
  - unfold Investors.written in *.
    change (Investors.join ", " (x :: y :: rest'))
      with (x ++ String "," (String " " (Investors.join ", " (y :: rest'))))%string.
    unfold Investors.investors_list at 1.
    rewrite (split_at_separator "," x _ Hx). cbn [map]. rewrite Hs.
    f_equal.
    change (map PyStr.strip
              (Investors.split "," (String " " (Investors.join ", " (y :: rest')))))
      with (Investors.investors_list
              (String " " (Investors.join ", " (y :: rest')))).
    rewrite investors_list_after_blank. apply IH. discriminate.
Qed.

(** X17, witness: three of the generator's investors. *)
Lemma investors_written_are_read_back_witness :
  Investors.written [ "Sequoia Capital"; "Tiger Global"; "Y Combinator" ]%string
  = "Sequoia Capital, Tiger Global, Y Combinator"%string /\
  Investors.investors_list "Sequoia Capital, Tiger Global, Y Combinator"
  = [ "Sequoia Capital"; "Tiger Global"; "Y Combinator" ]%string.
Proof.
  split; [reflexivity |].
  apply (investors_written_are_read_back
           [ "Sequoia Capital"; "Tiger Global"; "Y Combinator" ]%string).
  - discriminate.
  - repeat constructor; not_in_text.
Defined.
